(** * TandemQUAST: the pipeline controller of [tandemquast.py]

    A shallow embedding of [set_params] and [main].  The controller is a
    straight-line script that talks to its surroundings: it calls helpers
    of other modules ([check_fasta_files], [get_fasta_len], [Assembly],
    the [do] entry points of the stages), the operating system
    ([isdir], [makedirs], [exists], [subprocess.call]) and leaves through
    [sys.exit].  The embedding is a state-and-exit monad over

    - the attributes of the [config] module (a finite map from attribute
      names to values), and
    - the log of everything the run printed or called, in order.

    What the surroundings answer is fixed by a [World]; every theorem
    quantifies over it. *)

From Stdlib Require Import ZArith List Ascii String Lia.
From stdpp Require Import base option list strings gmap pretty.

Local Open Scope string_scope.
Local Open Scope list_scope.
Local Open Scope Z_scope.

(** ** Python values and string helpers *)

(** Truth value of an optional string argument: [None] and the empty
    string are false. *)
Definition truthy (o : option string) : bool :=
  match o with
  | Some (String _ _) => true
  | _ => false
  end.

(** The double quote character, removed from the label string. *)
Definition dquote : ascii := ascii_of_nat 34.

(** [s.replace(c, '')] for a one-character [c]. *)
Fixpoint remove_char (c : ascii) (s : string) : string :=
  match s with
  | EmptyString => EmptyString
  | String x s' =>
      if Ascii.eqb x c then remove_char c s' else String x (remove_char c s')
  end.

(** [s.split(sep)] for a one-character separator: never the empty list. *)
Fixpoint split (sep : ascii) (s : string) : list string :=
  match s with
  | EmptyString => [EmptyString]
  | String x s' =>
      if Ascii.eqb x sep then EmptyString :: split sep s'
      else match split sep s' with
           | h :: t => String x h :: t
           | [] => [String x EmptyString]
           end
  end.

(** [needle in hay]. *)
Fixpoint contains (needle hay : string) : bool :=
  String.prefix needle hay ||
  match hay with
  | EmptyString => false
  | String _ hay' => contains needle hay'
  end.

(** Last character of a string, if any. *)
Fixpoint last_char (s : string) : option ascii :=
  match s with
  | EmptyString => None
  | String x EmptyString => Some x
  | String _ s' => last_char s'
  end.

(** [os.path.join(a, b)] of [posixpath]. *)
Definition join (a b : string) : string :=
  if String.prefix "/" b then b
  else match last_char a with
       | None => b
       | Some x => if Ascii.eqb x "/" then a +:+ b else a +:+ "/" +:+ b
       end.

(** [sep.join(l)]. *)
Definition str_join (sep : string) (l : list string) : string :=
  String.concat sep l.

(** [str(n)] for an integer. *)
Definition str (n : Z) : string := pretty n.

(** ** The [config] module, assemblies and external calls *)

Inductive Value :=
  | VInt (z : Z)
  | VStr (s : string).

(** What [main] reads of an [Assembly] object. *)
Record Assembly := { fname : string; label : string }.

(** The calls that leave the controller and may raise; the index is the
    type of what they return. *)
Inductive Call : Type -> Type :=
  | check_fasta_files (fnames : list string) : Call bool
  | get_fasta_len (f : string) : Call Z
  | makedirs (path : string) : Call unit
  | new_Assembly (f : string) (name : option string) (out : string) : Call Assembly
  | subprocess_call (cmdl : list string) : Call Z
  | polishing_do (assemblies : list Assembly) (reads : string)
      (hifi : option string) (out tmp : string) : Call unit
  | coverage_test_do (assemblies : list Assembly) (out : string) : Call unit
  | bp_analysis_do (assemblies : list Assembly) (out : string) : Call unit
  | kmer_analysis_do (assemblies : list Assembly) (reads out : string)
      (no_reuse : bool) : Call unit
  | pairwise_comparison_do (assemblies : list Assembly) (out : string) : Call unit
  | discordance_do (assemblies : list Assembly) (reads out : string) : Call unit
  | monomer_analysis_do (assemblies : list Assembly) (reads monomers out : string)
      : Call unit.

Inductive Outcome (X : Type) :=
  | Returns (x : X)
  | Raises.
Arguments Returns {X} x.
Arguments Raises {X}.

(** The two places where [main] reads the clock. *)
Inductive Moment := AtStart | AtFinish.

(** The answers of the surroundings during one run.  [perform] says
    whether a call returns, and what, or raises; [isdir], [path_exists]
    and [now] answer for the moment [main] asks (each path is asked about
    once in a run). *)
Record World := {
  perform : forall X, Call X -> Outcome X;
  now : Moment -> string;        (* datetime.now().strftime(...) *)
  abspath : string -> string;
  isdir : string -> bool;
  path_exists : string -> bool;  (* os.path.exists *)
  sys_platform : string;
  script_dir : string            (* dirname(realpath(__file__)) *)
}.
Arguments perform w {X} c.

Inductive Event :=
  | Printed (s : string)
  | Called {X : Type} (c : Call X).

(** ** The monad: state, normal return or early termination *)

Record State := { config : gmap string Value; log : list Event }.

Inductive Termination :=
  | SysExit (code : Z)
  | Uncaught.

Inductive Res (A : Type) :=
  | Val (a : A)
  | Stop (t : Termination).
Arguments Val {A} a.
Arguments Stop {A} t.

Definition M (A : Type) : Type := State -> Res A * State.

Definition emit (e : Event) (st : State) : State :=
  {| config := config st; log := log st ++ [e] |}.

Definition store (k : string) (v : Value) (st : State) : State :=
  {| config := <[k := v]> (config st); log := log st |}.

#[global] Instance M_ret : MRet M := fun A a st => (Val a, st).

#[global] Instance M_bind : MBind M := fun A B k m st =>
  match m st with
  | (Val a, st') => k a st'
  | (Stop t, st') => (Stop t, st')
  end.

Definition print (s : string) : M unit := fun st => (Val tt, emit (Printed s) st).

Definition sys_exit {A} (code : Z) : M A := fun st => (Stop (SysExit code), st).

Definition raise {A} : M A := fun st => (Stop Uncaught, st).

Definition setattr (k : string) (v : Value) : M unit := fun st => (Val tt, store k v st).

(** Reading an integer attribute of [config]. *)
Definition getattr_int (k : string) : M Z := fun st =>
  match config st !! k with
  | Some (VInt z) => (Val z, st)
  | _ => (Stop Uncaught, st)
  end.

Fixpoint mapM {A B} (f : A -> M B) (l : list A) : M (list B) :=
  match l with
  | [] => mret []
  | a :: l' => b ← f a; bs ← mapM f l'; mret (b :: bs)
  end.

(** [max(l)] of a list of integers; the empty list raises. *)
Definition py_max (l : list Z) : M Z :=
  match l with
  | [] => raise
  | x :: l' => mret (foldl Z.max x l')
  end.

Record Args := {
  assembly_fnames : list string;
  labels : option string;
  nano_reads_fname : option string;
  pacbio_reads_fname : option string;
  hifi_reads_fname : option string;
  out_dir : string;
  threads : Z;
  monomers_fname : option string;
  no_reuse : bool;
  only_polish : bool;
  no_nucl_alignment : bool
}.

Section Controller.

Variable w : World.

Definition call {X} (c : Call X) : M X := fun st =>
  match perform w c with
  | Returns x => (Val x, emit (Called c) st)
  | Raises => (Stop Uncaught, emit (Called c) st)
  end.

(** [set_params], lines 17-30. *)
Definition set_params (fnames : list string) (threads : Z) : M unit :=
  ok ← call (check_fasta_files fnames);
  if negb ok then sys_exit 1 else
  lens ← mapM (fun f => call (get_fasta_len f)) fnames;
  assembly_len ← py_max lens;
  setattr "KMER_WINDOW_SIZE" (VInt (Z.max 500 (assembly_len / 150)));;
  (if assembly_len <? 100000 then setattr "BP_WINDOW_SIZE" (VInt 200)
   else if assembly_len <? 1000000 then setattr "BP_WINDOW_SIZE" (VInt 500)
   else setattr "BP_WINDOW_SIZE" (VInt 1000));;
  bp ← getattr_int "BP_WINDOW_SIZE";
  setattr "MOVING_AVG_WINDOW_SIZE"
    (VInt (Z.min 20 (Z.max 20 (assembly_len / bp / 20))));;
  setattr "MAX_THREADS" (VInt threads).

(** The command line of the aligner, lines 99-103. *)
Definition cmdl (a : Args) (out reads : string) (assemblies : list Assembly)
  : list string :=
  [abspath w (join (script_dir w) "tandemmapper.py"); "-t"; str (threads a); "-o"; out]
  ++ [if truthy (nano_reads_fname a) then "--nano" else "--pacbio"; reads]
  ++ ["-l"; str_join "," (map label assemblies)]
  ++ (if no_nucl_alignment a then ["--no-nucl-align"] else [])
  ++ map fname assemblies
  ++ (if no_reuse a then ["-f"] else []).

(** [main], lines 46-141.  After the read-source test exactly one of the
    two reads options is a non-empty string, so the [default] of
    [reads_fname] is never used; the import of line 86 has no effect of
    its own here. *)
Definition main (a : Args) : M unit :=
  print (now w AtStart +:+ " TandemQUAST started");;
  if (truthy (nano_reads_fname a) && truthy (pacbio_reads_fname a))
     || (negb (truthy (nano_reads_fname a)) && negb (truthy (pacbio_reads_fname a)))
  then
    print "ERROR! You should specify ONE path to a file with reads (ONT or Pacbio CLR reads)";;
    sys_exit 2
  else
  reads_fname ←
    (if truthy (nano_reads_fname a)
     then setattr "platform" (VStr "nano");; mret (default "" (nano_reads_fname a))
     else setattr "platfrom" (VStr "pacbio");; mret (default "" (pacbio_reads_fname a)));
  if bool_decide (assembly_fnames a = [])
  then
    print "ERROR! You should specify at least one assembly file.";;
    sys_exit 2
  else
  set_params (assembly_fnames a) (threads a);;
  let out := abspath w (out_dir a) in
  let report_dir := join out "report" in
  (if negb (isdir w report_dir) then call (makedirs report_dir) else mret tt);;
  let tmp_dir := join out "tmp" in
  (if negb (isdir w tmp_dir) then call (makedirs tmp_dir) else mret tt);;
  list_labels ←
    (if truthy (labels a)
     then
       let list_labels := split "," (remove_char dquote (default "" (labels a))) in
       if negb (length list_labels =? length (assembly_fnames a))%nat
       then
         print "ERROR! Number of labels must correspond to the number of analyzed assemblies";;
         sys_exit 2
       else mret (map Some list_labels)
     else mret (replicate (length (assembly_fnames a)) None));
  assemblies ←
    mapM (fun fl => call (new_Assembly (fst fl) (snd fl) out))
         (zip (assembly_fnames a) list_labels);
  if only_polish a
  then
    call (polishing_do assemblies reads_fname (hifi_reads_fname a) out tmp_dir);;
    print "";;
    print (now w AtFinish +:+ " TandemQUAST finished");;
    sys_exit 0
  else
  print "";;
  print "*********************************";;
  print "Running TandemMapper...";;
  return_code ← call (subprocess_call (cmdl a out reads_fname assemblies));
  if negb (return_code =? 0)
  then
    print "ERROR: tandemMapper failed! Please check input files and tandemMapper output. TandemQUAST cannot proceed without alignments";;
    sys_exit 2
  else
  call (coverage_test_do assemblies out);;
  call (bp_analysis_do assemblies out);;
  (if negb (no_nucl_alignment a)
   then call (kmer_analysis_do assemblies reads_fname out (no_reuse a))
   else mret tt);;
  call (pairwise_comparison_do assemblies out);;
  call (discordance_do assemblies reads_fname out);;
  monomers ←
    (if truthy (monomers_fname a) && negb (contains "linux" (sys_platform w))
     then
       print "ERROR: StringDecomposer can be run on Linux only. Monomer-based metrics will not be calculated";;
       mret None
     else mret (monomers_fname a));
  if negb (truthy monomers) || negb (path_exists w (default "" monomers))
  then
    print "";;
    print (now w AtFinish +:+ " TandemQUAST finished");;
    sys_exit 0
  else
  call (monomer_analysis_do assemblies reads_fname (default "" monomers) out);;
  print "";;
  print (now w AtFinish +:+ " TandemQUAST finished. Reports for different metrics are saved to "
         +:+ report_dir).

End Controller.

(** One run of the program from the initial [config] attributes. *)
Definition run (w : World) (cfg : gmap string Value) (a : Args) : Res unit * State :=
  main w a {| config := cfg; log := [] |}.

(** The exit status of the process: the argument of [sys.exit], [0] after
    a normal return of [main], [1] after an exception nobody caught. *)
Definition exit_status {A} (r : Res A) : Z :=
  match r with
  | Val _ => 0
  | Stop (SysExit code) => code
  | Stop Uncaught => 1
  end.

(** ** Reading a log *)

(** The subordinate process and the stages a run can invoke. *)
Inductive Stage :=
  | Polishing
  | Aligner
  | Coverage
  | Breakpoint
  | KmerConsistency
  | PairwiseComparison
  | Discordance
  | MonomerUnit.

Definition stage_of (e : Event) : option Stage :=
  match e with
  | Printed _ => None
  | Called c =>
      match c with
      | subprocess_call _ => Some Aligner
      | polishing_do _ _ _ _ _ => Some Polishing
      | coverage_test_do _ _ => Some Coverage
      | bp_analysis_do _ _ => Some Breakpoint
      | kmer_analysis_do _ _ _ _ => Some KmerConsistency
      | pairwise_comparison_do _ _ => Some PairwiseComparison
      | discordance_do _ _ _ => Some Discordance
      | monomer_analysis_do _ _ _ _ => Some MonomerUnit
      | _ => None
      end
  end.

(** The stages of a log, in the order they were invoked. *)
Definition stages (l : list Event) : list Stage := omap stage_of l.

Definition made_dir (e : Event) : option string :=
  match e with
  | Called c => match c with makedirs p => Some p | _ => None end
  | Printed _ => None
  end.

(** The directories a log created. *)
Definition dirs_made (l : list Event) : list string := omap made_dir l.

Definition built_of (e : Event) : option string :=
  match e with
  | Called c => match c with new_Assembly f _ _ => Some f | _ => None end
  | Printed _ => None
  end.

(** The files an [Assembly] was constructed for. *)
Definition built (l : list Event) : list string := omap built_of l.

Definition checked_of (e : Event) : option (list string) :=
  match e with
  | Called c => match c with check_fasta_files fs => Some fs | _ => None end
  | Printed _ => None
  end.

(** The arguments of the well-formedness checks of a log. *)
Definition checked (l : list Event) : list (list string) := omap checked_of l.

Definition aligner_cmdl (e : Event) : option (list string) :=
  match e with
  | Called c => match c with subprocess_call l => Some l | _ => None end
  | Printed _ => None
  end.

(** The command lines the aligner was started with. *)
Definition aligner_calls (l : list Event) : list (list string) := omap aligner_cmdl l.

Definition printed_of (e : Event) : option string :=
  match e with
  | Printed s => Some s
  | Called _ => None
  end.

(** The lines a log printed. *)
Definition printed (l : list Event) : list string := omap printed_of l.

(** The breakpoint window the specification assigns to a maximum
    assembly length: its three tiers. *)
Definition bp_tier (L : Z) : Z :=
  if L <? 100000 then 200 else if L <? 1000000 then 500 else 1000.

(** ** The two halves of [main] *)

(** What the first half hands to the second. *)
Record Ctx := {
  ctx_reads : string;
  ctx_out : string;
  ctx_report : string;
  ctx_tmp : string;
  ctx_assemblies : list Assembly
}.

Section Halves.

Variable w : World.

(** Lines 48-84 of [main]: validation, parameters, directories and the
    assembly objects. *)
Definition main_setup (a : Args) : M Ctx :=
  print (now w AtStart +:+ " TandemQUAST started");;
  if (truthy (nano_reads_fname a) && truthy (pacbio_reads_fname a))
     || (negb (truthy (nano_reads_fname a)) && negb (truthy (pacbio_reads_fname a)))
  then
    print "ERROR! You should specify ONE path to a file with reads (ONT or Pacbio CLR reads)";;
    sys_exit 2
  else
  reads_fname ←
    (if truthy (nano_reads_fname a)
     then setattr "platform" (VStr "nano");; mret (default "" (nano_reads_fname a))
     else setattr "platfrom" (VStr "pacbio");; mret (default "" (pacbio_reads_fname a)));
  if bool_decide (assembly_fnames a = [])
  then
    print "ERROR! You should specify at least one assembly file.";;
    sys_exit 2
  else
  set_params w (assembly_fnames a) (threads a);;
  let out := abspath w (out_dir a) in
  let report_dir := join out "report" in
  (if negb (isdir w report_dir) then call w (makedirs report_dir) else mret tt);;
  let tmp_dir := join out "tmp" in
  (if negb (isdir w tmp_dir) then call w (makedirs tmp_dir) else mret tt);;
  list_labels ←
    (if truthy (labels a)
     then
       let list_labels := split "," (remove_char dquote (default "" (labels a))) in
       if negb (length list_labels =? length (assembly_fnames a))%nat
       then
         print "ERROR! Number of labels must correspond to the number of analyzed assemblies";;
         sys_exit 2
       else mret (map Some list_labels)
     else mret (replicate (length (assembly_fnames a)) None));
  assemblies ←
    mapM (fun fl => call w (new_Assembly (fst fl) (snd fl) out))
         (zip (assembly_fnames a) list_labels);
  mret {| ctx_reads := reads_fname; ctx_out := out; ctx_report := report_dir;
          ctx_tmp := tmp_dir; ctx_assemblies := assemblies |}.

(** Lines 88-141 of [main]: polishing alone, or the aligner and the
    analysis stages. *)
Definition main_stages (a : Args) (c : Ctx) : M unit :=
  if only_polish a
  then
    call w (polishing_do (ctx_assemblies c) (ctx_reads c) (hifi_reads_fname a)
                         (ctx_out c) (ctx_tmp c));;
    print "";;
    print (now w AtFinish +:+ " TandemQUAST finished");;
    sys_exit 0
  else
  print "";;
  print "*********************************";;
  print "Running TandemMapper...";;
  return_code ←
    call w (subprocess_call (cmdl w a (ctx_out c) (ctx_reads c) (ctx_assemblies c)));
  if negb (return_code =? 0)
  then
    print "ERROR: tandemMapper failed! Please check input files and tandemMapper output. TandemQUAST cannot proceed without alignments";;
    sys_exit 2
  else
  call w (coverage_test_do (ctx_assemblies c) (ctx_out c));;
  call w (bp_analysis_do (ctx_assemblies c) (ctx_out c));;
  (if negb (no_nucl_alignment a)
   then call w (kmer_analysis_do (ctx_assemblies c) (ctx_reads c) (ctx_out c) (no_reuse a))
   else mret tt);;
  call w (pairwise_comparison_do (ctx_assemblies c) (ctx_out c));;
  call w (discordance_do (ctx_assemblies c) (ctx_reads c) (ctx_out c));;
  monomers ←
    (if truthy (monomers_fname a) && negb (contains "linux" (sys_platform w))
     then
       print "ERROR: StringDecomposer can be run on Linux only. Monomer-based metrics will not be calculated";;
       mret None
     else mret (monomers_fname a));
  if negb (truthy monomers) || negb (path_exists w (default "" monomers))
  then
    print "";;
    print (now w AtFinish +:+ " TandemQUAST finished");;
    sys_exit 0
  else
  call w (monomer_analysis_do (ctx_assemblies c) (ctx_reads c) (default "" monomers)
                              (ctx_out c));;
  print "";;
  print (now w AtFinish +:+ " TandemQUAST finished. Reports for different metrics are saved to "
         +:+ ctx_report c).

End Halves.

(** ** Observations of a state *)

(** [m] never changes what [f] observes of the state. *)
Definition steady {T A} (f : State -> T) (m : M A) : Prop :=
  forall st, f (snd (m st)) = f st.

(** What a reader [g] of events sees in the log of a state. *)
Definition seen {T} (g : Event -> option T) (st : State) : list T := omap g (log st).

(** A reader that ignores printing and the calls of the first half sees
    nothing new in it. *)
Definition quiet_in_setup {T} (g : Event -> option T) : Prop :=
  (forall s, g (Printed s) = None) /\
  (forall fs, g (Called (check_fasta_files fs)) = None) /\
  (forall f, g (Called (get_fasta_len f)) = None) /\
  (forall p, g (Called (makedirs p)) = None) /\
  (forall f n o, g (Called (new_Assembly f n o)) = None).

(** ** Assumptions on the surroundings *)

(** [max(l)] as a partial function. *)
Definition max_of (l : list Z) : option Z :=
  match l with
  | [] => None
  | x :: l' => Some (foldl Z.max x l')
  end.

(** The assembly files pass the well-formedness check and [len] gives
    their lengths. *)
Definition fasta_ok (w : World) (fnames : list string) (len : string -> Z) : Prop :=
  perform w (check_fasta_files fnames) = Returns true /\
  forall f, f ∈ fnames -> perform w (get_fasta_len f) = Returns (len f).

(** The reads file the run works with. *)
Definition reads_of (a : Args) : string :=
  if truthy (nano_reads_fname a)
  then default "" (nano_reads_fname a)
  else default "" (pacbio_reads_fname a).

(** The labels given to the assemblies, one per file. *)
Definition label_list (a : Args) : list (option string) :=
  if truthy (labels a)
  then map Some (split "," (remove_char dquote (default "" (labels a))))
  else replicate (length (assembly_fnames a)) None.

(** What lines 70-74 do about one directory. *)
Definition ensure_dir (w : World) (p : string) : list Event :=
  if isdir w p then [] else [Called (makedirs p)].

(** Valid input for the first half: one read source, at least one
    assembly file, all of them well-formed, as many labels as files when
    labels are given, and directory creation and the [Assembly]
    constructor do not raise. *)
Definition setup_ok (w : World) (a : Args) (len : string -> Z)
    (asm : string -> option string -> string -> Assembly) : Prop :=
  truthy (nano_reads_fname a) = negb (truthy (pacbio_reads_fname a)) /\
  assembly_fnames a <> [] /\
  fasta_ok w (assembly_fnames a) len /\
  (forall p, perform w (makedirs p) = Returns tt) /\
  (truthy (labels a) = true ->
   length (split "," (remove_char dquote (default "" (labels a))))
   = length (assembly_fnames a)) /\
  (forall f n o, perform w (new_Assembly f n o) = Returns (asm f n o)).

(** ** A concrete world and concrete arguments *)

Definition sample_len (f : string) : Z := Z.of_nat (String.length f) * 50000.

Definition sample_assembly (f : string) (name : option string) (out : string) : Assembly :=
  {| fname := f; label := default f name |}.

(** Every call returns; the aligner returns [rc]. *)
Definition sample_perform (rc : Z) (X : Type) (c : Call X) : Outcome X :=
  match c in Call X return Outcome X with
  | check_fasta_files _ => Returns true
  | get_fasta_len f => Returns (sample_len f)
  | makedirs _ => Returns tt
  | new_Assembly f name out => Returns (sample_assembly f name out)
  | subprocess_call _ => Returns rc
  | polishing_do _ _ _ _ _ => Returns tt
  | coverage_test_do _ _ => Returns tt
  | bp_analysis_do _ _ => Returns tt
  | kmer_analysis_do _ _ _ _ => Returns tt
  | pairwise_comparison_do _ _ => Returns tt
  | discordance_do _ _ _ => Returns tt
  | monomer_analysis_do _ _ _ _ => Returns tt
  end.

Definition sample_world (rc : Z) (platform : string) (dirs files : list string) : World :=
  {| perform := sample_perform rc;
     now := fun m => match m with
                     | AtStart => "2020-01-01 10:00:00"
                     | AtFinish => "2020-01-01 11:00:00"
                     end;
     abspath := fun p => if String.prefix "/" p then p else "/home/user/" +:+ p;
     isdir := fun p => bool_decide (p ∈@{list string} dirs);
     path_exists := fun p => bool_decide (p ∈@{list string} dirs ++ files);
     sys_platform := platform;
     script_dir := "/opt/TandemTools" |}.

Definition sample_args : Args :=
  {| assembly_fnames := ["a.fa"; "b.fasta"];
     labels := Some "x,y";
     nano_reads_fname := Some "reads.fq";
     pacbio_reads_fname := None;
     hifi_reads_fname := None;
     out_dir := "out";
     threads := 4;
     monomers_fname := Some "mono.fa";
     no_reuse := false;
     only_polish := false;
     no_nucl_alignment := false |}.

(** A polish-only run on PacBio CLR reads with HiFi reads. *)
Definition polish_args : Args :=
  {| assembly_fnames := ["asm1.fasta"; "asm2.fasta"; "asm3.fasta"];
     labels := None;
     nano_reads_fname := None;
     pacbio_reads_fname := Some "clr.fq";
     hifi_reads_fname := Some "hifi.fq";
     out_dir := "/data/out";
     threads := 16;
     monomers_fname := None;
     no_reuse := false;
     only_polish := true;
     no_nucl_alignment := false |}.

Definition empty_state : State := {| config := ∅; log := [] |}.

(** ** Vocabulary of the further properties *)

(** How often a character occurs in a string. *)
Fixpoint count_char (c : ascii) (s : string) : nat :=
  match s with
  | EmptyString => 0%nat
  | String x s' => ((if Ascii.eqb x c then 1 else 0) + count_char c s')%nat
  end.



(** The aligner and every stage do their work: the aligner returns
    status 0 and no stage raises. *)
Definition stages_ok (w : World) : Prop :=
  (forall l, perform w (subprocess_call l) = Returns 0) /\
  (forall asms o, perform w (coverage_test_do asms o) = Returns tt) /\
  (forall asms o, perform w (bp_analysis_do asms o) = Returns tt) /\
  (forall asms r o f, perform w (kmer_analysis_do asms r o f) = Returns tt) /\
  (forall asms o, perform w (pairwise_comparison_do asms o) = Returns tt) /\
  (forall asms r o, perform w (discordance_do asms r o) = Returns tt) /\
  (forall asms r m o, perform w (monomer_analysis_do asms r m o) = Returns tt).

(** The arguments with another HiFi reads file. *)
Definition with_hifi (h : option string) (a : Args) : Args :=
  {| assembly_fnames := assembly_fnames a; labels := labels a;
     nano_reads_fname := nano_reads_fname a;
     pacbio_reads_fname := pacbio_reads_fname a;
     hifi_reads_fname := h; out_dir := out_dir a; threads := threads a;
     monomers_fname := monomers_fname a; no_reuse := no_reuse a;
     only_polish := only_polish a; no_nucl_alignment := no_nucl_alignment a |}.

(** The arguments with other settings of the analysis stages. *)
Definition with_analysis (m : option string) (reuse nucl : bool) (a : Args) : Args :=
  {| assembly_fnames := assembly_fnames a; labels := labels a;
     nano_reads_fname := nano_reads_fname a;
     pacbio_reads_fname := pacbio_reads_fname a;
     hifi_reads_fname := hifi_reads_fname a; out_dir := out_dir a;
     threads := threads a;
     monomers_fname := m; no_reuse := reuse;
     only_polish := only_polish a; no_nucl_alignment := nucl |}.

(** The arguments with another label string. *)
Definition with_labels (l : option string) (a : Args) : Args :=
  {| assembly_fnames := assembly_fnames a; labels := l;
     nano_reads_fname := nano_reads_fname a;
     pacbio_reads_fname := pacbio_reads_fname a;
     hifi_reads_fname := hifi_reads_fname a; out_dir := out_dir a;
     threads := threads a;
     monomers_fname := monomers_fname a; no_reuse := no_reuse a;
     only_polish := only_polish a; no_nucl_alignment := no_nucl_alignment a |}.



(** The attributes of [config] that [main] and [set_params] assign. *)
Definition assigned_attrs : list string :=
  ["platform"; "platfrom"; "KMER_WINDOW_SIZE"; "BP_WINDOW_SIZE";
   "MOVING_AVG_WINDOW_SIZE"; "MAX_THREADS"].

(** A world where the well-formedness check of the assemblies fails. *)
Definition check_fails_perform (X : Type) (c : Call X) : Outcome X :=
  match c in Call X return Outcome X with
  | check_fasta_files _ => Returns false
  | c' => sample_perform 0 _ c'
  end.

Definition check_fails_world : World :=
  {| perform := check_fails_perform;
     now := now (sample_world 0 "linux" [] []);
     abspath := abspath (sample_world 0 "linux" [] []);
     isdir := isdir (sample_world 0 "linux" [] []);
     path_exists := path_exists (sample_world 0 "linux" [] []);
     sys_platform := "linux";
     script_dir := "/opt/TandemTools" |}.

(** The error lines [main] prints before [sys.exit(2)]. *)
Definition error_lines : list string :=
  ["ERROR! You should specify ONE path to a file with reads (ONT or Pacbio CLR reads)";
   "ERROR! You should specify at least one assembly file.";
   "ERROR! Number of labels must correspond to the number of analyzed assemblies";
   "ERROR: tandemMapper failed! Please check input files and tandemMapper output. TandemQUAST cannot proceed without alignments"].

(** * Proofs *)

(** ** Equations of the monad *)

Lemma bind_eq {A B} (m : M A) (k : A -> M B) st :
  (m ≫= k) st =
  match m st with
  | (Val a, st') => k a st'
  | (Stop t, st') => (Stop t, st')
  end.
Proof. reflexivity. Qed.

Lemma bind_assoc {A B C} (m : M A) (k : A -> M B) (h : B -> M C) st :
  ((m ≫= k) ≫= h) st = (m ≫= (fun x => k x ≫= h)) st.
Proof. rewrite !bind_eq. destruct (m st) as [[x|t] st']; reflexivity. Qed.

Lemma bind_ext {A B} (m : M A) (k k' : A -> M B) st :
  (forall x st', k x st' = k' x st') -> (m ≫= k) st = (m ≫= k') st.
Proof. intros E. rewrite !bind_eq. destruct (m st) as [[x|t] st']; auto. Qed.

Lemma bind_if {A B} (b : bool) (m1 m2 : M A) (k : A -> M B) st :
  ((if b then m1 else m2) ≫= k) st = (if b then m1 ≫= k else m2 ≫= k) st.
Proof. destruct b; reflexivity. Qed.

(** [main] is its first half followed by its second. *)
Lemma main_split w a st :
  main w a st = (main_setup w a ≫= main_stages w a) st.
Proof.
  unfold main, main_setup, main_stages.
  rewrite bind_assoc. apply bind_ext; intros [] st1.
  destruct (_ || _); [reflexivity|].
  rewrite bind_assoc. apply bind_ext; intros reads st2.
  destruct (bool_decide _); [reflexivity|].
  rewrite bind_assoc. apply bind_ext; intros [] st3.
  cbv zeta.
  rewrite bind_assoc. apply bind_ext; intros [] st4.
  rewrite bind_assoc. apply bind_ext; intros [] st5.
  rewrite bind_assoc. apply bind_ext; intros lbls st6.
  rewrite bind_assoc. apply bind_ext; intros asm st7.
  reflexivity.
Qed.

(** ** Observations that a computation leaves alone *)

Section Steady.

Context {T : Type} (f : State -> T).

Lemma steady_ret {A} (x : A) : steady f (mret x).
Proof. intros st. reflexivity. Qed.

Lemma steady_exit {A} code : steady f (@sys_exit A code).
Proof. intros st. reflexivity. Qed.

Lemma steady_raise {A} : steady f (@raise A).
Proof. intros st. reflexivity. Qed.

Lemma steady_getattr k : steady f (getattr_int k).
Proof. intros st. unfold getattr_int. by repeat case_match. Qed.

Lemma steady_py_max l : steady f (py_max l).
Proof. destruct l; [apply steady_raise | apply steady_ret]. Qed.

Lemma steady_bind {A B} (m : M A) (k : A -> M B) :
  steady f m -> (forall x, steady f (k x)) -> steady f (m ≫= k).
Proof.
  intros Hm Hk st. rewrite bind_eq. specialize (Hm st).
  destruct (m st) as [[x|t] st']; simpl in *; [|done].
  by rewrite Hk.
Qed.

Lemma steady_if {A} (b : bool) (m1 m2 : M A) :
  steady f m1 -> steady f m2 -> steady f (if b then m1 else m2).
Proof. by destruct b. Qed.

Lemma steady_mapM {A B} (g : A -> M B) l :
  (forall x, steady f (g x)) -> steady f (mapM g l).
Proof.
  intros Hg. induction l as [|x l IH]; simpl.
  - apply steady_ret.
  - apply steady_bind; [apply Hg|]. intros b.
    apply steady_bind; [apply IH|]. intros bs. apply steady_ret.
Qed.

Lemma steady_print s :
  (forall st, f (emit (Printed s) st) = f st) -> steady f (print s).
Proof. intros H st. apply H. Qed.

Lemma steady_call w {X} (c : Call X) :
  (forall st, f (emit (Called c) st) = f st) -> steady f (call w c).
Proof. intros H st. unfold call. destruct (perform w c); apply H. Qed.

Lemma steady_setattr k v :
  (forall st, f (store k v st) = f st) -> steady f (setattr k v).
Proof. intros H st. apply H. Qed.

End Steady.

Lemma seen_emit {T} (g : Event -> option T) e st :
  seen g (emit e st) = seen g st ++ match g e with Some x => [x] | None => [] end.
Proof.
  unfold seen, emit. simpl. rewrite omap_app. simpl.
  by destruct (g e).
Qed.

Lemma seen_emit_none {T} (g : Event -> option T) e st :
  g e = None -> seen g (emit e st) = seen g st.
Proof. intros E. rewrite seen_emit, E. apply app_nil_r. Qed.

Lemma seen_store {T} (g : Event -> option T) k v st :
  seen g (store k v st) = seen g st.
Proof. reflexivity. Qed.

Lemma attr_emit k e st : config (emit e st) !! k = config st !! k.
Proof. reflexivity. Qed.

Lemma attr_store_ne k k' v st :
  k' <> k -> config (store k' v st) !! k = config st !! k.
Proof. intros H. unfold store. simpl. by rewrite lookup_insert_ne. Qed.

Lemma attr_store_eq k v st : config (store k v st) !! k = Some v.
Proof. unfold store. simpl. by rewrite lookup_insert_eq. Qed.

(** One step of a proof that a computation is steady; the side
    conditions on single events and stores are left to the caller. *)
Ltac steady_step :=
  first
    [ apply steady_ret
    | apply steady_exit
    | apply steady_raise
    | apply steady_getattr
    | apply steady_py_max
    | apply steady_print
    | apply steady_call
    | apply steady_setattr
    | apply steady_mapM; intros ?
    | apply steady_bind; [|intros ?]
    | apply steady_if ].

Ltac steady_attr :=
  repeat steady_step;
  try (intros; first [apply attr_emit | apply attr_store_ne; discriminate]).

Lemma set_params_steady_seen {T} (g : Event -> option T) w fnames t :
  quiet_in_setup g -> steady (seen g) (set_params w fnames t).
Proof.
  intros (Hp & Hc & Hl & Hm & Ha). unfold set_params.
  repeat steady_step;
    intros; first [apply seen_store | apply seen_emit_none; auto].
Qed.

Lemma main_setup_steady_seen {T} (g : Event -> option T) w a :
  quiet_in_setup g -> steady (seen g) (main_setup w a).
Proof.
  intros Hq. pose proof Hq as (Hp & Hc & Hl & Hm & Ha). unfold main_setup.
  cbv zeta.
  repeat first [apply set_params_steady_seen; assumption | steady_step];
    intros; first [apply seen_store | apply seen_emit_none; auto].
Qed.

Lemma stage_of_quiet : quiet_in_setup stage_of.
Proof. by repeat split. Qed.

Lemma aligner_cmdl_quiet : quiet_in_setup aligner_cmdl.
Proof. by repeat split. Qed.

Lemma py_max_some l L st : max_of l = Some L -> py_max l st = (Val L, st).
Proof. destruct l; simpl; [done|]. by intros [= <-]. Qed.

Lemma emit_log_nil st : {| config := config st; log := log st ++ [] |} = st.
Proof. destruct st. simpl. by rewrite app_nil_r. Qed.

(** A loop of calls that all return: the results and the log. *)
Lemma mapM_call_returns w {A X} (c : A -> Call X) (g : A -> X) l st :
  (forall x, x ∈ l -> perform w (c x) = Returns (g x)) ->
  mapM (fun x => call w (c x)) l st =
  (Val (map g l),
   {| config := config st; log := log st ++ map (fun x => Called (c x)) l |}).
Proof.
  revert st. induction l as [|x l IH]; intros st H; simpl.
  - unfold mret, M_ret. by rewrite emit_log_nil.
  - rewrite bind_eq. unfold call at 1. rewrite (H x) by set_solver.
    rewrite bind_eq. rewrite IH by (intros; apply H; set_solver).
    unfold mret, M_ret, emit. simpl. by rewrite <- app_assoc.
Qed.

(** Single steps of a run. *)
Lemma ret_bind {A B} (x : A) (k : A -> M B) st : (mret x ≫= k) st = k x st.
Proof. reflexivity. Qed.

Lemma print_bind {B} s (k : unit -> M B) st :
  (print s ≫= k) st = k tt (emit (Printed s) st).
Proof. reflexivity. Qed.

Lemma setattr_bind {B} a v (k : unit -> M B) st :
  (setattr a v ≫= k) st = k tt (store a v st).
Proof. reflexivity. Qed.

Lemma exit_bind {A B} code (k : A -> M B) st :
  (sys_exit code ≫= k) st = (Stop (SysExit code), st).
Proof. reflexivity. Qed.

Lemma getattr_bind {B} a z (k : Z -> M B) st :
  config st !! a = Some (VInt z) -> (getattr_int a ≫= k) st = k z st.
Proof. intros E. rewrite bind_eq. unfold getattr_int. by rewrite E. Qed.

Lemma call_returns w {X} (c : Call X) x st :
  perform w c = Returns x -> call w c st = (Val x, emit (Called c) st).
Proof. intros E. unfold call. by rewrite E. Qed.

Lemma call_raises w {X} (c : Call X) st :
  perform w c = Raises -> call w c st = (Stop Uncaught, emit (Called c) st).
Proof. intros E. unfold call. by rewrite E. Qed.

Lemma call_bind_returns w {X B} (c : Call X) x (k : X -> M B) st :
  perform w c = Returns x -> (call w c ≫= k) st = k x (emit (Called c) st).
Proof. intros E. by rewrite bind_eq, (call_returns w c x). Qed.

Lemma call_bind_raises w {X B} (c : Call X) (k : X -> M B) st :
  perform w c = Raises -> (call w c ≫= k) st = (Stop Uncaught, emit (Called c) st).
Proof. intros E. by rewrite bind_eq, call_raises. Qed.

(** ** Parameter adaptation *)

(** [set_params] on well-formed files: it returns, and the four
    attributes it leaves in [config]. *)
Lemma set_params_ok w fnames t len L st :
  fasta_ok w fnames len ->
  max_of (map len fnames) = Some L ->
  exists st',
    set_params w fnames t st = (Val tt, st') /\
    log st' = log st ++ Called (check_fasta_files fnames)
                     :: map (fun f => Called (get_fasta_len f)) fnames /\
    config st' =
      <["MAX_THREADS" := VInt t]>
        (<["MOVING_AVG_WINDOW_SIZE" := VInt (Z.min 20 (Z.max 20 (L / bp_tier L / 20)))]>
           (<["BP_WINDOW_SIZE" := VInt (bp_tier L)]>
              (<["KMER_WINDOW_SIZE" := VInt (Z.max 500 (L / 150))]> (config st)))).
Proof.
  intros [Hc Hl] HL. unfold set_params.
  rewrite (call_bind_returns w _ true) by assumption.
  cbv beta. cbn [negb].
  rewrite bind_eq, (mapM_call_returns w get_fasta_len len) by assumption.
  rewrite bind_eq, (py_max_some _ L) by assumption.
  rewrite setattr_bind. cbv beta. unfold bp_tier.
  destruct (L <? 100000); [|destruct (L <? 1000000)];
    (rewrite setattr_bind; cbv beta;
     rewrite (getattr_bind _ _ _ _ (attr_store_eq _ _ _)); cbv beta;
     rewrite setattr_bind; cbv beta; unfold setattr;
     eexists; split; [reflexivity|]; simpl; split; [|reflexivity];
     by rewrite <- app_assoc).
Qed.

(** ** C1, C9: the adaptive parameters *)

(** C1: on well-formed, non-empty assembly files of positive maximum
    length [L], [set_params] returns and leaves in [config] the attribute
    [MOVING_AVG_WINDOW_SIZE] with the value
    [min(20, max(20, L // BP_WINDOW_SIZE // 20))], which is [20]. *)
Theorem set_params_moving_avg_window w fnames t len L st :
  fasta_ok w fnames len ->
  max_of (map len fnames) = Some L ->
  0 < L ->
  exists st' bp,
    set_params w fnames t st = (Val tt, st') /\
    config st' !! "BP_WINDOW_SIZE" = Some (VInt bp) /\
    config st' !! "MOVING_AVG_WINDOW_SIZE" =
      Some (VInt (Z.min 20 (Z.max 20 (L / bp / 20)))) /\
    config st' !! "MOVING_AVG_WINDOW_SIZE" = Some (VInt 20).
Proof.
  intros Hok HL _.
  destruct (set_params_ok w fnames t len L st Hok HL) as (st' & E & _ & Hc).
  exists st', (bp_tier L). rewrite Hc. split; [exact E|].
  split; [by simplify_map_eq|].
  split; [by simplify_map_eq|].
  rewrite lookup_insert_ne by done. rewrite lookup_insert_eq.
  do 2 f_equal. lia.
Qed.

Lemma set_params_moving_avg_window_witness :
  exists st' bp,
    set_params (sample_world 0 "linux" [] []) ["a.fa"; "b.fasta"] 4 empty_state
      = (Val tt, st') /\
    config st' !! "BP_WINDOW_SIZE" = Some (VInt bp) /\
    config st' !! "MOVING_AVG_WINDOW_SIZE" =
      Some (VInt (Z.min 20 (Z.max 20 (350000 / bp / 20)))) /\
    config st' !! "MOVING_AVG_WINDOW_SIZE" = Some (VInt 20).
Proof.
  apply (set_params_moving_avg_window (sample_world 0 "linux" [] [])
           ["a.fa"; "b.fasta"] 4 sample_len 350000 empty_state).
  - split; [reflexivity | intros f _; reflexivity].
  - reflexivity.
  - lia.
Defined.

(** C9: on well-formed assembly files of maximum length [L],
    [set_params] returns and leaves [KMER_WINDOW_SIZE = max(500, L // 150)],
    [BP_WINDOW_SIZE] equal to the tier of [L] (200 below 100000, 500 below
    1000000, 1000 from there on; one of the three values, and monotone in
    [L]) and [MAX_THREADS] equal to the thread count it was given. *)
Theorem set_params_windows w fnames t len L st :
  fasta_ok w fnames len ->
  max_of (map len fnames) = Some L ->
  (exists st' bp,
     set_params w fnames t st = (Val tt, st') /\
     config st' !! "KMER_WINDOW_SIZE" = Some (VInt (Z.max 500 (L / 150))) /\
     config st' !! "BP_WINDOW_SIZE" = Some (VInt bp) /\
     bp = bp_tier L /\
     (L < 100000 -> bp = 200) /\
     (100000 <= L < 1000000 -> bp = 500) /\
     (1000000 <= L -> bp = 1000) /\
     (bp = 200 \/ bp = 500 \/ bp = 1000) /\
     config st' !! "MAX_THREADS" = Some (VInt t)) /\
  (forall L', L <= L' -> bp_tier L <= bp_tier L').
Proof.
  intros Hok HL. split.
  - destruct (set_params_ok w fnames t len L st Hok HL) as (st' & E & _ & Hc).
    exists st', (bp_tier L). rewrite Hc. split; [exact E|].
    split; [by simplify_map_eq|].
    split; [by simplify_map_eq|].
    split; [reflexivity|].
    unfold bp_tier.
    repeat split; try (repeat case_match; lia).
    by simplify_map_eq.
  - intros L' HL'. unfold bp_tier. repeat case_match; lia.
Qed.

Lemma set_params_windows_witness :
  (exists st' bp,
     set_params (sample_world 0 "linux" [] []) ["a.fa"; "b.fasta"] 4 empty_state
       = (Val tt, st') /\
     config st' !! "KMER_WINDOW_SIZE" = Some (VInt (Z.max 500 (350000 / 150))) /\
     config st' !! "BP_WINDOW_SIZE" = Some (VInt bp) /\
     bp = bp_tier 350000 /\
     (350000 < 100000 -> bp = 200) /\
     (100000 <= 350000 < 1000000 -> bp = 500) /\
     (1000000 <= 350000 -> bp = 1000) /\
     (bp = 200 \/ bp = 500 \/ bp = 1000) /\
     config st' !! "MAX_THREADS" = Some (VInt 4)) /\
  (forall L', 350000 <= L' -> bp_tier 350000 <= bp_tier L').
Proof.
  apply (set_params_windows (sample_world 0 "linux" [] [])
           ["a.fa"; "b.fasta"] 4 sample_len 350000 empty_state).
  - split; [reflexivity | intros f _; reflexivity].
  - reflexivity.
Defined.

(** ** C6, C3: the read source *)

(** The head of every run: the start notice, then the read-source test. *)
Lemma main_conflict w a st :
  truthy (nano_reads_fname a) = truthy (pacbio_reads_fname a) ->
  main w a st =
  (Stop (SysExit 2),
   emit (Printed "ERROR! You should specify ONE path to a file with reads (ONT or Pacbio CLR reads)")
     (emit (Printed (now w AtStart +:+ " TandemQUAST started")) st)).
Proof.
  intros E. unfold main. rewrite print_bind. cbv beta. rewrite E.
  destruct (truthy (pacbio_reads_fname a)); reflexivity.
Qed.

(** C6: a run given both a nanopore and a PacBio CLR reads file, or
    neither of them, reports the error and exits with status 2 having
    done nothing but printing: no directory is created, no stage or
    other call is made, and [config] is untouched. *)
Theorem read_source_conflict_exits_early w cfg a :
  (truthy (nano_reads_fname a) = true /\ truthy (pacbio_reads_fname a) = true) \/
  (truthy (nano_reads_fname a) = false /\ truthy (pacbio_reads_fname a) = false) ->
  exit_status (fst (run w cfg a)) = 2 /\
  log (snd (run w cfg a)) =
    [Printed (now w AtStart +:+ " TandemQUAST started");
     Printed "ERROR! You should specify ONE path to a file with reads (ONT or Pacbio CLR reads)"] /\
  dirs_made (log (snd (run w cfg a))) = [] /\
  stages (log (snd (run w cfg a))) = [] /\
  config (snd (run w cfg a)) = cfg.
Proof.
  intros H. unfold run. rewrite main_conflict by (destruct H as [[-> ->]|[-> ->]]; done).
  by repeat split.
Qed.

Lemma read_source_conflict_exits_early_witness :
  let a := {| assembly_fnames := ["a.fa"]; labels := None;
              nano_reads_fname := Some "ont.fq"; pacbio_reads_fname := Some "clr.fq";
              hifi_reads_fname := None; out_dir := "out"; threads := 4;
              monomers_fname := None; no_reuse := false; only_polish := false;
              no_nucl_alignment := false |} in
  let r := run (sample_world 0 "linux" [] []) ∅ a in
  exit_status (fst r) = 2 /\
  log (snd r) =
    [Printed "2020-01-01 10:00:00 TandemQUAST started";
     Printed "ERROR! You should specify ONE path to a file with reads (ONT or Pacbio CLR reads)"] /\
  dirs_made (log (snd r)) = [] /\
  stages (log (snd r)) = [] /\
  config (snd r) = ∅.
Proof.
  intros a r.
  apply (read_source_conflict_exits_early (sample_world 0 "linux" [] []) ∅ a).
  left. split; reflexivity.
Defined.

Lemma steady_at {T} (f : State -> T) {A} (m : M A) st :
  steady f m -> f (snd (m st)) = f st.
Proof. intros H. apply H. Qed.

(** C3: in a run with the PacBio CLR reads alone, the attribute
    [platform] of [config] keeps the value it had at the start, whatever
    the run goes on to do, and the tag [pacbio] is in the attribute
    [platfrom]; in a run with the nanopore reads alone, [platform] is
    [nano]. *)
Theorem read_source_platform_attribute w cfg a :
  (truthy (nano_reads_fname a) = false ->
   truthy (pacbio_reads_fname a) = true ->
   config (snd (run w cfg a)) !! "platform" = cfg !! "platform" /\
   config (snd (run w cfg a)) !! "platfrom" = Some (VStr "pacbio")) /\
  (truthy (nano_reads_fname a) = true ->
   truthy (pacbio_reads_fname a) = false ->
   config (snd (run w cfg a)) !! "platform" = Some (VStr "nano")).
Proof.
  split; intros Hn Hp; unfold run.
  - split.
    + apply (steady_at (fun st => config st !! "platform")).
      unfold main, set_params. rewrite Hn, Hp. cbn [andb orb negb]. cbv zeta.
      steady_attr.
    + unfold main. rewrite print_bind. cbv beta. rewrite Hn, Hp.
      cbn [andb orb negb]. rewrite bind_assoc, setattr_bind. cbv beta.
      rewrite ret_bind.
      match goal with |- config (snd (?m ?s)) !! ?k = _ =>
        transitivity (config s !! k);
          [apply (steady_at (fun st => config st !! k) m s)|apply attr_store_eq]
      end.
      unfold set_params. cbv zeta. steady_attr.
  - unfold main. rewrite print_bind. cbv beta. rewrite Hn, Hp.
    cbn [andb orb negb]. rewrite bind_assoc, setattr_bind. cbv beta.
    rewrite ret_bind.
    match goal with |- config (snd (?m ?s)) !! ?k = _ =>
      transitivity (config s !! k);
        [apply (steady_at (fun st => config st !! k) m s)|apply attr_store_eq]
    end.
    unfold set_params. cbv zeta. steady_attr.
Qed.

Lemma read_source_platform_attribute_witness :
  let w := sample_world 0 "linux" [] [] in
  (config (snd (run w ∅ polish_args)) !! "platform" = (∅ : gmap string Value) !! "platform" /\
   config (snd (run w ∅ polish_args)) !! "platfrom" = Some (VStr "pacbio")) /\
  config (snd (run w ∅ sample_args)) !! "platform" = Some (VStr "nano").
Proof.
  intros w. split.
  - apply (proj1 (read_source_platform_attribute w ∅ polish_args)); reflexivity.
  - apply (proj2 (read_source_platform_attribute w ∅ sample_args)); reflexivity.
Defined.

(** ** The first half on valid input *)

Lemma max_of_is_Some l : l <> [] -> is_Some (max_of l).
Proof. destruct l; [done|]. by eexists. Qed.

Lemma ensure_dir_run w p {B} (k : unit -> M B) st :
  perform w (makedirs p) = Returns tt ->
  ((if negb (isdir w p) then call w (makedirs p) else mret tt) ≫= k) st
  = k tt {| config := config st; log := log st ++ ensure_dir w p |}.
Proof.
  intros E. unfold ensure_dir. destruct (isdir w p); cbn [negb].
  - rewrite ret_bind. by rewrite emit_log_nil.
  - by rewrite (call_bind_returns w _ tt).
Qed.

(** The first half on valid input: what it returns, logs and stores. *)
Lemma main_setup_ok w a len asm st :
  setup_ok w a len asm ->
  let out := abspath w (out_dir a) in
  exists L st1,
    max_of (map len (assembly_fnames a)) = Some L /\
    main_setup w a st =
      (Val {| ctx_reads := reads_of a; ctx_out := out;
              ctx_report := join out "report"; ctx_tmp := join out "tmp";
              ctx_assemblies :=
                map (fun fl => asm (fst fl) (snd fl) out)
                    (zip (assembly_fnames a) (label_list a)) |}, st1) /\
    log st1 =
      log st ++
      Printed (now w AtStart +:+ " TandemQUAST started")
      :: Called (check_fasta_files (assembly_fnames a))
      :: map (fun f => Called (get_fasta_len f)) (assembly_fnames a)
      ++ ensure_dir w (join out "report")
      ++ ensure_dir w (join out "tmp")
      ++ map (fun fl => Called (new_Assembly (fst fl) (snd fl) out))
             (zip (assembly_fnames a) (label_list a)) /\
    config st1 =
      <["MAX_THREADS" := VInt (threads a)]>
        (<["MOVING_AVG_WINDOW_SIZE" := VInt (Z.min 20 (Z.max 20 (L / bp_tier L / 20)))]>
           (<["BP_WINDOW_SIZE" := VInt (bp_tier L)]>
              (<["KMER_WINDOW_SIZE" := VInt (Z.max 500 (L / 150))]>
                 (if truthy (nano_reads_fname a)
                  then <["platform" := VStr "nano"]> (config st)
                  else <["platfrom" := VStr "pacbio"]> (config st))))).
Proof.
  intros (Hsrc & Hne & Hfa & Hmk & Hlb & Hasm) out.
  destruct (max_of_is_Some (map len (assembly_fnames a))) as [L HL].
  { by destruct (assembly_fnames a). }
  exists L. unfold main_setup. rewrite print_bind. cbv beta.
  rewrite Hsrc.
  replace (_ || _) with false by (by destruct (truthy (pacbio_reads_fname a))).
  rewrite bind_eq.
  set (s0 := emit _ st).
  set (s1 := {| config := if truthy (nano_reads_fname a)
                          then <["platform" := VStr "nano"]> (config st)
                          else <["platfrom" := VStr "pacbio"]> (config st);
                log := log s0 |}).
  replace ((if negb (truthy (pacbio_reads_fname a)) then _ else _) s0)
    with (Val (reads_of a), s1).
  2:{ unfold reads_of, s1. rewrite Hsrc.
      by destruct (negb (truthy (pacbio_reads_fname a))). }
  rewrite bool_decide_eq_false_2 by done.
  destruct (set_params_ok w (assembly_fnames a) (threads a) len L s1 Hfa HL)
    as (s2 & E2 & Hlog2 & Hcfg2).
  rewrite bind_eq, E2. cbv zeta.
  rewrite ensure_dir_run by apply Hmk.
  rewrite ensure_dir_run by apply Hmk.
  rewrite bind_eq.
  match goal with
  | |- context [(if truthy (labels a) then ?m1 else ?m2) ?s] =>
      replace ((if truthy (labels a) then m1 else m2) s) with (Val (label_list a), s)
  end.
  2:{ unfold label_list. destruct (truthy (labels a)); [|done].
      cbv zeta. rewrite Hlb by done. by rewrite Nat.eqb_refl. }
  rewrite bind_eq.
  rewrite (mapM_call_returns w
             (fun fl => new_Assembly (fst fl) (snd fl) (abspath w (out_dir a)))
             (fun fl => asm (fst fl) (snd fl) (abspath w (out_dir a))))
    by (intros; apply Hasm).
  eexists. split; [exact HL|]. split; [reflexivity|]. simpl.
  split.
  - rewrite Hlog2. simpl. by rewrite <- !app_assoc.
  - rewrite Hcfg2. unfold s1. simpl. by rewrite Hsrc.
Qed.

(** A loop of calls in any world: all of them return, or one raises. *)
Lemma mapM_call_cases w {A X} (c : A -> Call X) l st :
  (exists xs,
     Forall2 (fun x y => perform w (c x) = Returns y) l xs /\
     mapM (fun x => call w (c x)) l st =
     (Val xs, {| config := config st; log := log st ++ map (fun x => Called (c x)) l |}))
  \/ (exists st', mapM (fun x => call w (c x)) l st = (Stop Uncaught, st')).
Proof.
  revert st. induction l as [|x l IH]; intros st; simpl.
  - left. exists []. split; [constructor|].
    unfold mret, M_ret. by rewrite emit_log_nil.
  - destruct (perform w (c x)) as [y|] eqn:E.
    + rewrite (call_bind_returns w _ _ _ _ E).
      destruct (IH (emit (Called (c x)) st)) as [(xs & HF & E')|(st' & E')];
        rewrite bind_eq, E'.
      * left. exists (y :: xs). split; [by constructor|].
        unfold mret, M_ret, emit. simpl. by rewrite <- app_assoc.
      * right. by eexists.
    + right. rewrite (call_bind_raises w _ _ _ E). by eexists.
Qed.

(** [set_params] in any world: when it returns, the check has passed,
    the lengths were read, and the four attributes are stored. *)
Lemma set_params_val w fnames t st st' :
  set_params w fnames t st = (Val tt, st') ->
  exists lens L,
    perform w (check_fasta_files fnames) = Returns true /\
    Forall2 (fun f n => perform w (get_fasta_len f) = Returns n) fnames lens /\
    max_of lens = Some L /\
    log st' = log st ++ Called (check_fasta_files fnames)
                     :: map (fun f => Called (get_fasta_len f)) fnames /\
    config st' =
      <["MAX_THREADS" := VInt t]>
        (<["MOVING_AVG_WINDOW_SIZE" := VInt (Z.min 20 (Z.max 20 (L / bp_tier L / 20)))]>
           (<["BP_WINDOW_SIZE" := VInt (bp_tier L)]>
              (<["KMER_WINDOW_SIZE" := VInt (Z.max 500 (L / 150))]> (config st)))).
Proof.
  unfold set_params.
  destruct (perform w (check_fasta_files fnames)) as [[|]|] eqn:Hc.
  2:{ rewrite (call_bind_returns w _ _ _ _ Hc). cbn [negb]. discriminate. }
  2:{ rewrite (call_bind_raises w _ _ _ Hc). discriminate. }
  rewrite (call_bind_returns w _ _ _ _ Hc). cbv beta. cbn [negb].
  destruct (mapM_call_cases w get_fasta_len fnames
              (emit (Called (check_fasta_files fnames)) st))
    as [(lens & HF & E)|(s & E)]; rewrite bind_eq, E; [|discriminate].
  destruct (max_of lens) as [L|] eqn:HL.
  2:{ destruct lens; [|discriminate HL]. discriminate. }
  intros H. exists lens, L.
  split; [reflexivity|]. split; [exact HF|]. split; [exact HL|]. revert H.
  rewrite bind_eq, (py_max_some _ L) by assumption.
  rewrite setattr_bind. cbv beta. unfold bp_tier.
  destruct (L <? 100000); [|destruct (L <? 1000000)];
    (rewrite setattr_bind; cbv beta;
     rewrite (getattr_bind _ _ _ _ (attr_store_eq _ _ _)); cbv beta;
     rewrite setattr_bind; cbv beta; unfold setattr;
     intros [= <-]; simpl; split; [|reflexivity]; by rewrite <- app_assoc).
Qed.

Lemma ensure_dir_cases w p {B} (k : unit -> M B) st :
  ((if negb (isdir w p) then call w (makedirs p) else mret tt) ≫= k) st
  = k tt {| config := config st; log := log st ++ ensure_dir w p |}
  \/ exists st',
       ((if negb (isdir w p) then call w (makedirs p) else mret tt) ≫= k) st
       = (Stop Uncaught, st').
Proof.
  destruct (perform w (makedirs p)) as [[]|] eqn:E.
  - left. by apply ensure_dir_run.
  - unfold ensure_dir. destruct (isdir w p); cbn [negb].
    + left. rewrite ret_bind. by rewrite emit_log_nil.
    + right. rewrite (call_bind_raises w _ _ _ E). by eexists.
Qed.

(** The first half in any world: when it returns, everything before the
    stages has happened. *)
Lemma main_setup_val w a st c st1 :
  main_setup w a st = (Val c, st1) ->
  let out := abspath w (out_dir a) in
  exists lens L asms,
    truthy (nano_reads_fname a) = negb (truthy (pacbio_reads_fname a)) /\
    perform w (check_fasta_files (assembly_fnames a)) = Returns true /\
    Forall2 (fun f n => perform w (get_fasta_len f) = Returns n)
            (assembly_fnames a) lens /\
    max_of lens = Some L /\
    Forall2 (fun fl x => perform w (new_Assembly (fst fl) (snd fl) out) = Returns x)
            (zip (assembly_fnames a) (label_list a)) asms /\
    c = {| ctx_reads := reads_of a; ctx_out := out;
           ctx_report := join out "report"; ctx_tmp := join out "tmp";
           ctx_assemblies := asms |} /\
    log st1 =
      log st ++
      Printed (now w AtStart +:+ " TandemQUAST started")
      :: Called (check_fasta_files (assembly_fnames a))
      :: map (fun f => Called (get_fasta_len f)) (assembly_fnames a)
      ++ ensure_dir w (join out "report")
      ++ ensure_dir w (join out "tmp")
      ++ map (fun fl => Called (new_Assembly (fst fl) (snd fl) out))
             (zip (assembly_fnames a) (label_list a)) /\
    config st1 =
      <["MAX_THREADS" := VInt (threads a)]>
        (<["MOVING_AVG_WINDOW_SIZE" := VInt (Z.min 20 (Z.max 20 (L / bp_tier L / 20)))]>
           (<["BP_WINDOW_SIZE" := VInt (bp_tier L)]>
              (<["KMER_WINDOW_SIZE" := VInt (Z.max 500 (L / 150))]>
                 (if truthy (nano_reads_fname a)
                  then <["platform" := VStr "nano"]> (config st)
                  else <["platfrom" := VStr "pacbio"]> (config st))))).
Proof.
  intros H out. revert H. unfold main_setup. rewrite print_bind. cbv beta.
  unfold reads_of.
  destruct (truthy (nano_reads_fname a)) eqn:Hn,
    (truthy (pacbio_reads_fname a)) eqn:Hp; cbn [andb orb negb];
    try (rewrite print_bind; discriminate).
  all: rewrite bind_assoc, setattr_bind; cbv beta; rewrite ret_bind.
  all: destruct (bool_decide (assembly_fnames a = []));
    try (rewrite print_bind; discriminate).
  all: match goal with
       | |- context [(set_params ?w0 ?f ?t ≫= _) ?s] =>
           destruct (set_params w0 f t s) as [[[]|e] s2] eqn:E2;
           rewrite bind_eq, E2
       end; try discriminate.
  all: apply set_params_val in E2 as (lens & L & Hc & HF & HL & Hlog2 & Hcfg2).
  all: cbv zeta.
  all: match goal with
       | |- context [((if negb (isdir ?w0 ?p) then _ else _) ≫= ?k) ?s] =>
           destruct (ensure_dir_cases w0 p k s) as [E3|[s3 E3]]; rewrite E3; clear E3
       end; try discriminate.
  all: match goal with
       | |- context [((if negb (isdir ?w0 ?p) then _ else _) ≫= ?k) ?s] =>
           destruct (ensure_dir_cases w0 p k s) as [E4|[s4 E4]]; rewrite E4; clear E4
       end; try discriminate.
  all: unfold label_list.
  all: destruct (truthy (labels a));
    try (destruct (negb (_ =? _)%nat); try (rewrite bind_assoc, print_bind; discriminate)).
  all: rewrite ret_bind.
  all: match goal with
       | |- context [(mapM (fun fl => call ?w0 (@?c fl)) ?l ≫= _) ?s] =>
           destruct (mapM_call_cases w0 c l s) as [(asms & HA & E5)|(s5 & E5)];
           rewrite bind_eq, E5
       end; try discriminate.
  all: intros [= <- <-]; exists lens, L, asms.
  all: repeat (split; first [reflexivity | assumption | idtac]).
  all: cbn [log config emit store]; rewrite ?Hlog2, ?Hcfg2;
    cbn [log config emit store]; rewrite <- ?app_assoc; reflexivity.
Qed.

(** ** Running the second half *)

(** One step of a run whose outcome is open: the effect of a print, a
    store, a return or an exit, and both outcomes of a call or a test. *)
Ltac exec_step :=
  cbv beta;
  first
    [ rewrite print_bind
    | rewrite setattr_bind
    | rewrite ret_bind
    | rewrite exit_bind
    | rewrite bind_assoc
    | match goal with
      | |- context [(call ?w ?c ≫= ?k) ?st] =>
          let E := fresh "E" in
          destruct (perform w c) as [?|] eqn:E;
          [rewrite (call_bind_returns w c _ k st E)
          |rewrite (call_bind_raises w c k st E)]
      end
    | match goal with
      | |- context [((if ?b then _ else _) ≫= _) _] => destruct b eqn:?
      | |- context [(if ?b then _ else _) _] => destruct b eqn:?
      end ].

Ltac exec := repeat exec_step; unfold print, sys_exit; cbv beta.

(** Reading the log of a state built from single events. *)
Ltac see :=
  repeat match goal with
    | |- context [stages (log ?s)] => change (stages (log s)) with (seen stage_of s)
    | |- context [aligner_calls (log ?s)] =>
        change (aligner_calls (log s)) with (seen aligner_cmdl s)
    | |- context [printed (log ?s)] => change (printed (log s)) with (seen printed_of s)
    end;
  cbn [fst snd];
  rewrite ?seen_emit;
  cbn [stage_of aligner_cmdl printed_of];
  rewrite ?app_nil_r.

(** ** C4: polishing alone *)

(** C4: a run in polish-only mode never starts the aligner or an
    analysis stage: the only stage it can invoke is polishing; and on
    valid input, when polishing returns, the run invokes exactly the
    polishing stage and exits with status 0. *)
Theorem polish_only_runs_polishing_alone w cfg a :
  only_polish a = true ->
  (stages (log (snd (run w cfg a))) = [] \/
   stages (log (snd (run w cfg a))) = [Polishing]) /\
  (forall len asm,
     setup_ok w a len asm ->
     (forall asms r h o t, perform w (polishing_do asms r h o t) = Returns tt) ->
     fst (run w cfg a) = Stop (SysExit 0) /\
     exit_status (fst (run w cfg a)) = 0 /\
     stages (log (snd (run w cfg a))) = [Polishing]).
Proof.
  intros Hpo. unfold run. rewrite main_split, bind_eq.
  set (st0 := {| config := cfg; log := [] |}).
  pose proof (main_setup_steady_seen stage_of w a stage_of_quiet st0) as Hq.
  split.
  - destruct (main_setup w a st0) as [[c|t] st1]; simpl in Hq; [|by left].
    unfold main_stages. rewrite Hpo.
    exec; see; rewrite Hq; auto.
  - intros len asm Hok Hpol.
    destruct (main_setup_ok w a len asm st0 Hok) as (L & st1 & _ & E & _).
    rewrite E in Hq |- *. simpl in Hq.
    unfold main_stages. rewrite Hpo.
    rewrite (call_bind_returns w _ tt) by apply Hpol.
    exec; see; rewrite Hq; auto.
Qed.

Lemma polish_only_runs_polishing_alone_witness :
  let w := sample_world 0 "linux" [] [] in
  fst (run w ∅ polish_args) = Stop (SysExit 0) /\
  exit_status (fst (run w ∅ polish_args)) = 0 /\
  stages (log (snd (run w ∅ polish_args))) = [Polishing].
Proof.
  intros w.
  destruct (polish_only_runs_polishing_alone w ∅ polish_args eq_refl) as [_ H].
  apply (H sample_len sample_assembly).
  - repeat split; first [reflexivity | discriminate | intros; reflexivity].
  - intros asms r h o t. reflexivity.
Defined.

(** ** C5: failure of the aligner *)

(** C5: when the aligner was started with a command line on which it
    returns a non-zero status, the run reports the failure and exits with
    status 2, and the aligner is the only stage the run has invoked: no
    analysis stage follows (and polishing did not run). *)
Theorem aligner_failure_stops_run w cfg a c rc :
  c ∈ aligner_calls (log (snd (run w cfg a))) ->
  perform w (subprocess_call c) = Returns rc ->
  rc <> 0 ->
  fst (run w cfg a) = Stop (SysExit 2) /\
  exit_status (fst (run w cfg a)) = 2 /\
  stages (log (snd (run w cfg a))) = [Aligner] /\
  last (printed (log (snd (run w cfg a)))) =
    Some "ERROR: tandemMapper failed! Please check input files and tandemMapper output. TandemQUAST cannot proceed without alignments".
Proof.
  intros Hin Hrc Hnz. revert Hin. unfold run. rewrite main_split, bind_eq.
  set (st0 := {| config := cfg; log := [] |}).
  pose proof (main_setup_steady_seen stage_of w a stage_of_quiet st0) as Hq.
  pose proof (main_setup_steady_seen aligner_cmdl w a aligner_cmdl_quiet st0) as Hq'.
  destruct (main_setup w a st0) as [[x|t] st1]; simpl in Hq, Hq'.
  2:{ cbn [fst snd]. change (aligner_calls (log st1)) with (seen aligner_cmdl st1).
    rewrite Hq'. intros Hin. by apply elem_of_nil in Hin. }
  unfold main_stages.
  destruct (only_polish a).
  { exec; see; rewrite Hq'; intros Hin; by apply elem_of_nil in Hin. }
  do 3 exec_step.
  match goal with
  | |- context [call w (subprocess_call ?l)] =>
      destruct (perform w (subprocess_call l)) as [r|] eqn:E
  end.
  2:{ rewrite (call_bind_raises w _ _ _ E). see. rewrite Hq'. intros Hin.
      apply list_elem_of_singleton in Hin. subst c. congruence. }
  rewrite (call_bind_returns w _ _ _ _ E). cbv beta.
  destruct (negb (r =? 0)) eqn:Hr.
  - exec. intros _. see. rewrite Hq. repeat split.
    apply last_snoc.
  - assert (r = 0) as -> by (apply negb_false_iff in Hr; lia).
    exec; see; rewrite Hq'; intros Hin;
      apply list_elem_of_singleton in Hin; subst c; congruence.
Qed.

Lemma aligner_failure_stops_run_witness :
  let w := sample_world 1 "linux" [] ["mono.fa"] in
  fst (run w ∅ sample_args) = Stop (SysExit 2) /\
  exit_status (fst (run w ∅ sample_args)) = 2 /\
  stages (log (snd (run w ∅ sample_args))) = [Aligner] /\
  last (printed (log (snd (run w ∅ sample_args)))) =
    Some "ERROR: tandemMapper failed! Please check input files and tandemMapper output. TandemQUAST cannot proceed without alignments".
Proof.
  intros w.
  apply (aligner_failure_stops_run w ∅ sample_args
           ["/opt/TandemTools/tandemmapper.py"; "-t"; "4"; "-o"; "/home/user/out";
            "--nano"; "reads.fq"; "-l"; "x,y"; "a.fa"; "b.fasta"] 1).
  - vm_compute. apply list_elem_of_here.
  - reflexivity.
  - lia.
Defined.

(** ** C7: the k-mer stage and the no-nucl-align flag *)

(** Membership in an explicit list of stages, and its refutation. *)
Ltac elem_in := solve [repeat first [apply list_elem_of_here | apply list_elem_of_further]].

Ltac elem_out H :=
  repeat (apply elem_of_cons in H as [H|H]; [discriminate H|]);
  apply elem_of_nil in H; exact H.

Ltac close_stage_goal :=
  match goal with
  | H : forall _, _, E : perform _ _ = Raises |- _ => rewrite H in E; discriminate E
  | |- _ `prefix_of` _ => eexists; reflexivity
  | |- _ ∉ _ => let H := fresh in intros H; elem_out H
  | |- _ ∈ _ => elem_in
  | H : _ ∈ _ |- _ => exfalso; elem_out H
  end.

(** C7: in a run that is not polish-only, with the no-nucl-align flag
    set the k-mer stage is never invoked, the stages run in the order
    aligner, coverage, breakpoints, pairwise comparison, discordance,
    monomers with nothing in between, and the pairwise comparison does
    run once the breakpoint stage has returned; with the flag unset the
    k-mer stage runs between the breakpoint stage and the pairwise
    comparison. *)
Theorem no_nucl_alignment_order w cfg a :
  only_polish a = false ->
  (no_nucl_alignment a = true ->
   (KmerConsistency ∉ stages (log (snd (run w cfg a)))) /\
   (stages (log (snd (run w cfg a))) `prefix_of`
      [Aligner; Coverage; Breakpoint; PairwiseComparison; Discordance; MonomerUnit]) /\
   ((forall asms o, perform w (bp_analysis_do asms o) = Returns tt) ->
    Breakpoint ∈ stages (log (snd (run w cfg a))) ->
    PairwiseComparison ∈ stages (log (snd (run w cfg a))))) /\
  (no_nucl_alignment a = false ->
   (stages (log (snd (run w cfg a))) `prefix_of`
      [Aligner; Coverage; Breakpoint; KmerConsistency; PairwiseComparison;
       Discordance; MonomerUnit]) /\
   ((forall asms o, perform w (bp_analysis_do asms o) = Returns tt) ->
    Breakpoint ∈ stages (log (snd (run w cfg a))) ->
    KmerConsistency ∈ stages (log (snd (run w cfg a)))) /\
   ((forall asms r o f, perform w (kmer_analysis_do asms r o f) = Returns tt) ->
    KmerConsistency ∈ stages (log (snd (run w cfg a))) ->
    PairwiseComparison ∈ stages (log (snd (run w cfg a))))).
Proof.
  intros Hpo. unfold run. rewrite main_split, bind_eq.
  set (st0 := {| config := cfg; log := [] |}).
  pose proof (main_setup_steady_seen stage_of w a stage_of_quiet st0) as Hq.
  change (seen stage_of st0) with (@nil Stage) in Hq.
  destruct (main_setup w a st0) as [[x|t] st1]; simpl in Hq.
  2:{ cbn [fst snd]. change (stages (log st1)) with (seen stage_of st1).
      rewrite Hq. repeat split; intros; close_stage_goal. }
  unfold main_stages. rewrite Hpo.
  split; intros Hnn; rewrite Hnn; cbn [negb].
  - exec; see; rewrite Hq; cbn [app]; repeat split; intros; close_stage_goal.
  - exec; see; rewrite Hq; cbn [app]; repeat split; intros; close_stage_goal.
Qed.

Lemma no_nucl_alignment_order_witness :
  let w := sample_world 0 "linux" [] ["mono.fa"] in
  let a := {| assembly_fnames := ["a.fa"; "b.fasta"]; labels := None;
              nano_reads_fname := None; pacbio_reads_fname := Some "clr.fq";
              hifi_reads_fname := None; out_dir := "/data/out"; threads := 8;
              monomers_fname := None; no_reuse := true; only_polish := false;
              no_nucl_alignment := true |} in
  ((KmerConsistency ∉ stages (log (snd (run w ∅ a)))) /\
   PairwiseComparison ∈ stages (log (snd (run w ∅ a)))) /\
  (KmerConsistency ∈ stages (log (snd (run w ∅ sample_args))) /\
   PairwiseComparison ∈ stages (log (snd (run w ∅ sample_args)))).
Proof.
  intros w a. split.
  - destruct (no_nucl_alignment_order w ∅ a eq_refl) as [H _].
    destruct (H eq_refl) as (Hk & _ & Hp).
    split; [exact Hk|]. apply Hp.
    + intros asms o. reflexivity.
    + vm_compute. elem_in.
  - destruct (no_nucl_alignment_order w ∅ sample_args eq_refl) as [_ H].
    destruct (H eq_refl) as (_ & Hk & Hp).
    assert (KmerConsistency ∈ stages (log (snd (run w ∅ sample_args)))) as Hin.
    { apply Hk; [intros asms o; reflexivity | vm_compute; elem_in]. }
    split; [exact Hin|]. apply Hp; [|exact Hin].
    intros asms r o f. reflexivity.
Defined.

(** ** C8: the monomer stage *)

Ltac exec_bool :=
  repeat first [progress cbn [andb orb negb truthy] | exec_step];
  unfold print, sys_exit; cbv beta.

(** Membership in a log that ends in explicit events. *)
Ltac elem_in_app :=
  repeat first [apply elem_of_app; right; elem_in | apply elem_of_app; left].

(** C8: in a run that got past the discordance stage, if no monomer file
    was given, or the path does not exist, or the platform is not of the
    Linux family, the monomer stage is not invoked and the run exits with
    status 0; when a monomer file was given and the platform is not of
    the Linux family the warning is printed; and the monomer stage is
    invoked exactly when a monomer file was given, exists and the
    platform is of the Linux family. *)
Theorem monomer_stage_gate w cfg a :
  Discordance ∈ stages (log (snd (run w cfg a))) ->
  (forall asms r o, perform w (discordance_do asms r o) = Returns tt) ->
  (truthy (monomers_fname a) = false \/
   path_exists w (default "" (monomers_fname a)) = false \/
   contains "linux" (sys_platform w) = false ->
   (MonomerUnit ∉ stages (log (snd (run w cfg a)))) /\
   fst (run w cfg a) = Stop (SysExit 0) /\
   exit_status (fst (run w cfg a)) = 0) /\
  (truthy (monomers_fname a) = true ->
   contains "linux" (sys_platform w) = false ->
   "ERROR: StringDecomposer can be run on Linux only. Monomer-based metrics will not be calculated"
     ∈ printed (log (snd (run w cfg a)))) /\
  (MonomerUnit ∈ stages (log (snd (run w cfg a))) <->
   truthy (monomers_fname a) = true /\
   path_exists w (default "" (monomers_fname a)) = true /\
   contains "linux" (sys_platform w) = true).
Proof.
  intros Hd Hdis. revert Hd. unfold run. rewrite main_split, bind_eq.
  set (st0 := {| config := cfg; log := [] |}).
  pose proof (main_setup_steady_seen stage_of w a stage_of_quiet st0) as Hq.
  change (seen stage_of st0) with (@nil Stage) in Hq.
  destruct (main_setup w a st0) as [[x|t] st1]; simpl in Hq.
  2:{ cbn [fst snd]. change (stages (log st1)) with (seen stage_of st1).
      rewrite Hq. intros Hd. exfalso. elem_out Hd. }
  unfold main_stages.
  destruct (only_polish a).
  { exec; see; rewrite Hq; cbn [app]; intros Hd; exfalso; elem_out Hd. }
  exec_bool; see; rewrite Hq; cbn [app]; intros Hd;
    try (exfalso; elem_out Hd);
    try (match goal with E : perform _ (discordance_do _ _ _) = Raises |- _ =>
           rewrite Hdis in E; discriminate E end);
    clear Hd;
    destruct (truthy (monomers_fname a)), (contains "linux" (sys_platform w)),
      (path_exists w (default "" (monomers_fname a)));
    cbn [andb orb negb] in *; try discriminate.
  all: split; [intros Hor | split; [intros Ht Hl | split; [intros Hm | intros (? & ? & ?)]]].
  all: try solve
    [ discriminate
    | destruct Hor as [?|[?|?]]; discriminate
    | exfalso; elem_out Hm
    | elem_in
    | elem_in_app
    | repeat split; first [reflexivity | close_stage_goal] ].
Qed.

Lemma monomer_stage_gate_witness :
  let w := sample_world 0 "darwin" [] ["mono.fa"] in
  (MonomerUnit ∉ stages (log (snd (run w ∅ sample_args)))) /\
  fst (run w ∅ sample_args) = Stop (SysExit 0) /\
  exit_status (fst (run w ∅ sample_args)) = 0 /\
  "ERROR: StringDecomposer can be run on Linux only. Monomer-based metrics will not be calculated"
    ∈ printed (log (snd (run w ∅ sample_args))).
Proof.
  intros w.
  assert (Discordance ∈ stages (log (snd (run w ∅ sample_args)))) as Hd
    by (vm_compute; elem_in).
  assert (forall asms r o, perform w (discordance_do asms r o) = Returns tt) as Hdis
    by (intros asms r o; reflexivity).
  destruct (monomer_stage_gate w ∅ sample_args Hd Hdis) as (Hskip & Hwarn & _).
  destruct Hskip as (H1 & H2 & H3); [right; right; reflexivity|].
  split; [exact H1|]. split; [exact H2|]. split; [exact H3|].
  apply Hwarn; reflexivity.
Defined.

(** ** C2: labels that do not match the assemblies *)

Lemma omap_map_none {A B T} (g : B -> option T) (h : A -> B) l :
  (forall x, g (h x) = None) -> omap g (map h l) = [].
Proof. intros H. induction l as [|x l IH]; simpl; [done|]. by rewrite H. Qed.

(** The first half with one read source and well-formed files, up to the
    labels: the state it reaches there. *)
Lemma main_setup_label_mismatch w a len st :
  truthy (nano_reads_fname a) = negb (truthy (pacbio_reads_fname a)) ->
  assembly_fnames a <> [] ->
  fasta_ok w (assembly_fnames a) len ->
  (forall p, perform w (makedirs p) = Returns tt) ->
  truthy (labels a) = true ->
  length (split "," (remove_char dquote (default "" (labels a))))
    <> length (assembly_fnames a) ->
  let out := abspath w (out_dir a) in
  exists st1,
    main_setup w a st = (Stop (SysExit 2), st1) /\
    log st1 =
      log st ++
      Printed (now w AtStart +:+ " TandemQUAST started")
      :: Called (check_fasta_files (assembly_fnames a))
      :: map (fun f => Called (get_fasta_len f)) (assembly_fnames a)
      ++ ensure_dir w (join out "report")
      ++ ensure_dir w (join out "tmp")
      ++ [Printed "ERROR! Number of labels must correspond to the number of analyzed assemblies"].
Proof.
  intros Hsrc Hne Hfa Hmk Hlb Hlen out.
  destruct (max_of_is_Some (map len (assembly_fnames a))) as [L HL].
  { by destruct (assembly_fnames a). }
  unfold main_setup. rewrite print_bind. cbv beta.
  rewrite Hsrc.
  replace (_ || _) with false by (by destruct (truthy (pacbio_reads_fname a))).
  rewrite bind_eq.
  set (s0 := emit _ st).
  set (s1 := {| config := if truthy (nano_reads_fname a)
                          then <["platform" := VStr "nano"]> (config st)
                          else <["platfrom" := VStr "pacbio"]> (config st);
                log := log s0 |}).
  replace ((if negb (truthy (pacbio_reads_fname a)) then _ else _) s0)
    with (Val (reads_of a), s1).
  2:{ unfold reads_of, s1. rewrite Hsrc.
      by destruct (negb (truthy (pacbio_reads_fname a))). }
  rewrite bool_decide_eq_false_2 by done.
  destruct (set_params_ok w (assembly_fnames a) (threads a) len L s1 Hfa HL)
    as (s2 & E2 & Hlog2 & _).
  rewrite bind_eq, E2. cbv zeta.
  rewrite ensure_dir_run by apply Hmk.
  rewrite ensure_dir_run by apply Hmk.
  rewrite Hlb. apply Nat.eqb_neq in Hlen. rewrite Hlen. cbn [negb].
  rewrite bind_assoc, print_bind. cbv beta. rewrite !exit_bind.
  eexists. split; [reflexivity|]. simpl.
  rewrite Hlog2. simpl. by rewrite <- !app_assoc.
Qed.

Lemma omap_cons_eq {B T} (g : B -> option T) x l :
  omap g (x :: l) = match g x with Some y => y :: omap g l | None => omap g l end.
Proof. reflexivity. Qed.

Lemma omap_ensure_dir {T} (g : Event -> option T) w p :
  omap g (ensure_dir w p) =
  if isdir w p then []
  else match g (Called (makedirs p)) with Some y => [y] | None => [] end.
Proof. unfold ensure_dir. by destruct (isdir w p). Qed.

(** Reading an explicit log piece by piece. *)
Ltac read_log :=
  unfold printed, built, stages, dirs_made, checked, aligner_calls;
  rewrite ?omap_cons_eq, ?omap_app, ?omap_cons_eq, ?omap_ensure_dir;
  rewrite ?(omap_map_none _ (fun f => Called (get_fasta_len f))) by done;
  cbn [printed_of built_of stage_of made_dir checked_of aligner_cmdl omap app].

(** C2, as the code has it: with one read source, at least one assembly
    file, all of them well-formed, and a non-empty label string whose
    number of comma-separated labels differs from the number of
    assembly files, the run reports the error and exits with status 2
    before any [Assembly] is constructed and before any stage; by then
    it has created the report and tmp directories that did not exist. *)
Theorem label_mismatch_exits_after_dirs w cfg a len :
  truthy (nano_reads_fname a) = negb (truthy (pacbio_reads_fname a)) ->
  assembly_fnames a <> [] ->
  fasta_ok w (assembly_fnames a) len ->
  (forall p, perform w (makedirs p) = Returns tt) ->
  truthy (labels a) = true ->
  length (split "," (remove_char dquote (default "" (labels a))))
    <> length (assembly_fnames a) ->
  fst (run w cfg a) = Stop (SysExit 2) /\
  exit_status (fst (run w cfg a)) = 2 /\
  last (printed (log (snd (run w cfg a)))) =
    Some "ERROR! Number of labels must correspond to the number of analyzed assemblies" /\
  built (log (snd (run w cfg a))) = [] /\
  stages (log (snd (run w cfg a))) = [] /\
  dirs_made (log (snd (run w cfg a))) =
    (if isdir w (join (abspath w (out_dir a)) "report")
     then [] else [join (abspath w (out_dir a)) "report"]) ++
    (if isdir w (join (abspath w (out_dir a)) "tmp")
     then [] else [join (abspath w (out_dir a)) "tmp"]).
Proof.
  intros Hsrc Hne Hfa Hmk Hlb Hlen. unfold run. rewrite main_split, bind_eq.
  destruct (main_setup_label_mismatch w a len {| config := cfg; log := [] |}
              Hsrc Hne Hfa Hmk Hlb Hlen) as (st1 & E & Hlog).
  rewrite E. cbn [fst snd]. rewrite Hlog. cbn [log app].
  split; [reflexivity|]. split; [reflexivity|].
  read_log.
  destruct (isdir w _), (isdir w _); repeat split.
Qed.

Lemma label_mismatch_exits_after_dirs_witness :
  let w := sample_world 0 "linux" ["/home/user/out/report"] [] in
  let a := {| assembly_fnames := ["a.fa"; "b.fasta"]; labels := Some "solo";
              nano_reads_fname := Some "reads.fq"; pacbio_reads_fname := None;
              hifi_reads_fname := None; out_dir := "out"; threads := 4;
              monomers_fname := None; no_reuse := false; only_polish := false;
              no_nucl_alignment := false |} in
  fst (run w ∅ a) = Stop (SysExit 2) /\
  exit_status (fst (run w ∅ a)) = 2 /\
  last (printed (log (snd (run w ∅ a)))) =
    Some "ERROR! Number of labels must correspond to the number of analyzed assemblies" /\
  built (log (snd (run w ∅ a))) = [] /\
  stages (log (snd (run w ∅ a))) = [] /\
  dirs_made (log (snd (run w ∅ a))) = ["/home/user/out/tmp"].
Proof.
  intros w a.
  apply (label_mismatch_exits_after_dirs w ∅ a sample_len).
  - reflexivity.
  - discriminate.
  - split; [reflexivity | intros f _; reflexivity].
  - intros p. reflexivity.
  - reflexivity.
  - vm_compute. lia.
Defined.

(** C2, as the specification states it, fails: two assembly files and a
    label string with one label, in an empty output directory.  The run
    exits with status 2, but it has created both directories. *)
Lemma label_mismatch_creates_dirs :
  let w := sample_world 0 "linux" [] [] in
  let a := {| assembly_fnames := ["a.fa"; "b.fasta"]; labels := Some "solo";
              nano_reads_fname := Some "reads.fq"; pacbio_reads_fname := None;
              hifi_reads_fname := None; out_dir := "out"; threads := 4;
              monomers_fname := None; no_reuse := false; only_polish := false;
              no_nucl_alignment := false |} in
  length (assembly_fnames a) = 2%nat /\
  length (split "," (remove_char dquote "solo")) = 1%nat /\
  exit_status (fst (run w ∅ a)) = 2 /\
  dirs_made (log (snd (run w ∅ a))) = ["/home/user/out/report"; "/home/user/out/tmp"] /\
  ~ (exit_status (fst (run w ∅ a)) = 2 /\ dirs_made (log (snd (run w ∅ a))) = []).
Proof.
  intros w a.
  assert (dirs_made (log (snd (run w ∅ a)))
          = ["/home/user/out/report"; "/home/user/out/tmp"]) as Hd
    by (vm_compute; reflexivity).
  repeat split; try (vm_compute; reflexivity); try exact Hd.
  intros [_ H]. rewrite Hd in H. discriminate H.
Qed.

(** ** C10: polish-only mode does not skip the first half *)

(** The run when the well-formedness check fails. *)
Lemma main_check_fails w a st :
  truthy (nano_reads_fname a) = negb (truthy (pacbio_reads_fname a)) ->
  assembly_fnames a <> [] ->
  perform w (check_fasta_files (assembly_fnames a)) = Returns false ->
  fst (main w a st) = Stop (SysExit 1) /\
  log (snd (main w a st)) =
    log st ++ [Printed (now w AtStart +:+ " TandemQUAST started");
               Called (check_fasta_files (assembly_fnames a))].
Proof.
  intros Hsrc Hne Hc. unfold main. rewrite print_bind. cbv beta.
  rewrite Hsrc.
  replace (_ || _) with false by (by destruct (truthy (pacbio_reads_fname a))).
  rewrite bind_if.
  destruct (negb (truthy (pacbio_reads_fname a)));
    rewrite bind_assoc, setattr_bind; cbv beta; rewrite ret_bind;
    rewrite bool_decide_eq_false_2 by done;
    unfold set_params; rewrite !bind_assoc;
    rewrite (call_bind_returns w _ false) by assumption;
    cbn [negb]; rewrite !exit_bind; cbn [fst snd emit store log];
    by rewrite <- app_assoc.
Qed.

(** C10: in polish-only mode, with one read source and at least one
    assembly file, a failing well-formedness check ends the run with
    status 1 before any directory is created and before polishing;
    whenever the polishing stage is invoked, the well-formedness check
    has passed, and the log has before the call of the polishing stage
    that check and the creation of the report and tmp directories that
    did not exist, and [config] holds the four adaptive parameters of the
    maximum assembly length; and on valid input the polishing stage is
    invoked. *)
Theorem polish_only_keeps_setup w cfg a :
  only_polish a = true ->
  (truthy (nano_reads_fname a) = negb (truthy (pacbio_reads_fname a)) ->
   assembly_fnames a <> [] ->
   perform w (check_fasta_files (assembly_fnames a)) = Returns false ->
   fst (run w cfg a) = Stop (SysExit 1) /\
   exit_status (fst (run w cfg a)) = 1 /\
   checked (log (snd (run w cfg a))) = [assembly_fnames a] /\
   stages (log (snd (run w cfg a))) = [] /\
   dirs_made (log (snd (run w cfg a))) = []) /\
  (Polishing ∈ stages (log (snd (run w cfg a))) ->
   let out := abspath w (out_dir a) in
   exists lens L asms pre post,
     perform w (check_fasta_files (assembly_fnames a)) = Returns true /\
     Forall2 (fun f n => perform w (get_fasta_len f) = Returns n)
             (assembly_fnames a) lens /\
     max_of lens = Some L /\
     log (snd (run w cfg a)) =
       pre ++
       Called (polishing_do asms (reads_of a) (hifi_reads_fname a) out (join out "tmp"))
       :: post /\
     checked pre = [assembly_fnames a] /\
     stages pre = [] /\
     dirs_made pre =
       (if isdir w (join out "report") then [] else [join out "report"]) ++
       (if isdir w (join out "tmp") then [] else [join out "tmp"]) /\
     config (snd (run w cfg a)) !! "KMER_WINDOW_SIZE"
       = Some (VInt (Z.max 500 (L / 150))) /\
     config (snd (run w cfg a)) !! "BP_WINDOW_SIZE" = Some (VInt (bp_tier L)) /\
     config (snd (run w cfg a)) !! "MOVING_AVG_WINDOW_SIZE" = Some (VInt 20) /\
     config (snd (run w cfg a)) !! "MAX_THREADS" = Some (VInt (threads a))) /\
  (forall len asm,
     setup_ok w a len asm -> Polishing ∈ stages (log (snd (run w cfg a)))).
Proof.
  intros Hpo. split; [|split].
  - intros Hsrc Hne Hc. unfold run.
    destruct (main_check_fails w a {| config := cfg; log := [] |} Hsrc Hne Hc)
      as [-> ->].
    by repeat split.
  - unfold run. rewrite main_split, bind_eq.
    set (st0 := {| config := cfg; log := [] |}).
    pose proof (main_setup_steady_seen stage_of w a stage_of_quiet st0) as Hq.
    change (seen stage_of st0) with (@nil Stage) in Hq.
    destruct (main_setup w a st0) as [[c|t] st1] eqn:E; cbn [snd] in Hq.
    2:{ cbn [fst snd]. change (stages (log st1)) with (seen stage_of st1).
        rewrite Hq. intros Hin. exfalso. elem_out Hin. }
    intros _. cbv zeta.
    pose proof (main_setup_val _ _ _ _ _ E) as HV. cbv zeta in HV.
    destruct HV as (lens & L & asms & _ & Hc & HF & HL & _ & -> & Hlog & Hcfg).
    unfold st0 in Hlog. cbn [log app] in Hlog.
    unfold main_stages. rewrite Hpo.
    cbn [ctx_assemblies ctx_reads ctx_out ctx_tmp].
    exists lens, L, asms, (log st1).
    assert (checked (log st1) = [assembly_fnames a] /\ stages (log st1) = [] /\
            dirs_made (log st1) =
              (if isdir w (join (abspath w (out_dir a)) "report")
               then [] else [join (abspath w (out_dir a)) "report"]) ++
              (if isdir w (join (abspath w (out_dir a)) "tmp")
               then [] else [join (abspath w (out_dir a)) "tmp"])) as Hpre.
    { rewrite Hlog. cbn [log app]. read_log.
      rewrite ?omap_map_none by (intros; reflexivity).
      by destruct (isdir w _), (isdir w _). }
    assert (config st1 !! "KMER_WINDOW_SIZE" = Some (VInt (Z.max 500 (L / 150))) /\
            config st1 !! "BP_WINDOW_SIZE" = Some (VInt (bp_tier L)) /\
            config st1 !! "MOVING_AVG_WINDOW_SIZE" = Some (VInt 20) /\
            config st1 !! "MAX_THREADS" = Some (VInt (threads a))) as Hpar.
    { rewrite Hcfg. repeat split.
      - rewrite !lookup_insert_ne by done. apply lookup_insert_eq.
      - rewrite !lookup_insert_ne by done. apply lookup_insert_eq.
      - rewrite !lookup_insert_ne by done. rewrite lookup_insert_eq.
        do 2 f_equal. lia.
      - apply lookup_insert_eq. }
    destruct Hpre as (Hck & Hst & Hdm). destruct Hpar as (Hk & Hb & Hm & Ht).
    match goal with
    | |- context [call w ?c] => destruct (perform w c) as [[]|] eqn:Ep
    end.
    + rewrite (call_bind_returns w _ _ _ _ Ep). exec. cbn [fst snd emit log config].
      eexists. split; [exact Hc|]. split; [exact HF|]. split; [exact HL|].
      split; [by rewrite <- !app_assoc|].
      by repeat split.
    + rewrite (call_bind_raises w _ _ _ Ep). cbn [fst snd emit log config].
      exists []. split; [exact Hc|]. split; [exact HF|]. split; [exact HL|].
      by repeat split.
  - intros len asm Hok. unfold run. rewrite main_split, bind_eq.
    destruct (main_setup_ok w a len asm {| config := cfg; log := [] |} Hok)
      as (L & st1 & _ & E & _).
    rewrite E. unfold main_stages. rewrite Hpo.
    match goal with
    | |- context [call w ?c] => destruct (perform w c) as [[]|] eqn:Ep
    end.
    + rewrite (call_bind_returns w _ _ _ _ Ep). exec. see. solve [elem_in_app].
    + rewrite (call_bind_raises w _ _ _ Ep). see. solve [elem_in_app].
Qed.

Lemma polish_only_keeps_setup_witness :
  let w := sample_world 0 "linux" [] [] in
  exists lens L asms pre post,
    perform w (check_fasta_files (assembly_fnames polish_args)) = Returns true /\
    Forall2 (fun f n => perform w (get_fasta_len f) = Returns n)
            (assembly_fnames polish_args) lens /\
    max_of lens = Some L /\
    log (snd (run w ∅ polish_args)) =
      pre ++
      Called (polishing_do asms (reads_of polish_args) (hifi_reads_fname polish_args)
                "/data/out" (join "/data/out" "tmp"))
      :: post /\
    checked pre = [assembly_fnames polish_args] /\
    stages pre = [] /\
    dirs_made pre =
      (if isdir w (join "/data/out" "report") then [] else [join "/data/out" "report"]) ++
      (if isdir w (join "/data/out" "tmp") then [] else [join "/data/out" "tmp"]) /\
    config (snd (run w ∅ polish_args)) !! "KMER_WINDOW_SIZE"
      = Some (VInt (Z.max 500 (L / 150))) /\
    config (snd (run w ∅ polish_args)) !! "BP_WINDOW_SIZE" = Some (VInt (bp_tier L)) /\
    config (snd (run w ∅ polish_args)) !! "MOVING_AVG_WINDOW_SIZE" = Some (VInt 20) /\
    config (snd (run w ∅ polish_args)) !! "MAX_THREADS"
      = Some (VInt (threads polish_args)).
Proof.
  intros w.
  destruct (polish_only_keeps_setup w ∅ polish_args eq_refl) as (_ & H & _).
  apply H. vm_compute. elem_in.
Defined.

(** * Further properties *)

(** ** Strings: labels, platform names and paths *)

Lemma split_not_nil sep s : split sep s <> [].
Proof.
  destruct s as [|x s]; simpl; [done|].
  destruct (Ascii.eqb x sep); [done|]. by destruct (split sep s).
Qed.

Lemma concat_cons sep h t :
  t <> [] -> String.concat sep (h :: t) = h +:+ sep +:+ String.concat sep t.
Proof. by destruct t. Qed.

(** X1: joining the pieces of [s.split(sep)] with [sep] gives [s] back,
    and the number of pieces is the number of separators in [s] plus
    one: a label string with k commas always counts as k + 1 labels. *)
Theorem split_join_round_trip (sep : ascii) (s : string) :
  str_join (String sep EmptyString) (split sep s) = s /\
  length (split sep s) = S (count_char sep s).
Proof.
  unfold str_join. induction s as [|x s [IH1 IH2]]; [done|].
  simpl. destruct (Ascii.eqb x sep) eqn:E.
  - apply Ascii.eqb_eq in E. subst x. split.
    + rewrite concat_cons by apply split_not_nil. simpl. by rewrite IH1.
    + simpl. by rewrite IH2.
  - pose proof (split_not_nil sep s) as Hne.
    destruct (split sep s) as [|h t]; [done|]. split.
    + destruct t as [|h' t].
      * simpl in *. by rewrite IH1.
      * rewrite concat_cons by done. rewrite concat_cons in IH1 by done.
        by rewrite <- IH1.
    + simpl in *. exact IH2.
Qed.

(** X2: [s.replace(c, '')] leaves no [c] in the string, keeps a string
    without [c] as it is, and so is idempotent. *)
Theorem remove_char_spec (c : ascii) (s : string) :
  count_char c (remove_char c s) = 0%nat /\
  (count_char c s = 0%nat -> remove_char c s = s) /\
  remove_char c (remove_char c s) = remove_char c s.
Proof.
  assert (forall t, count_char c (remove_char c t) = 0%nat) as H1.
  { induction t as [|x t IH]; [done|]. simpl.
    destruct (Ascii.eqb x c) eqn:E; [done|]. simpl. by rewrite E. }
  assert (forall t, count_char c t = 0%nat -> remove_char c t = t) as H2.
  { induction t as [|x t IH]; [done|]. simpl.
    destruct (Ascii.eqb x c); [done|]. simpl. intros H. by rewrite IH. }
  split; [apply H1|]. split; [apply H2|]. apply H2, H1.
Qed.

Lemma remove_char_spec_witness :
  remove_char dquote "a,b" = "a,b".
Proof. apply (proj1 (proj2 (remove_char_spec dquote "a,b"))). reflexivity. Defined.

Lemma prefix_spec n h :
  String.prefix n h = true <-> exists post, h = n +:+ post.
Proof.
  revert h. induction n as [|x n IH]; intros h; simpl.
  - split; [|by destruct h]. intros _. by exists h.
  - destruct h as [|y h].
    + split; [done|]. by intros [post H].
    + simpl. destruct (ascii_dec x y) as [->|Hne].
      * rewrite IH. split; intros [post H]; exists post; [by rewrite H|].
        by injection H.
      * split; [done|]. intros [post H]. injection H as H1 H2. done.
Qed.

(** X3: the test [needle in hay] holds exactly when [hay] is some
    string, then [needle], then some string. *)
Theorem contains_spec (needle hay : string) :
  contains needle hay = true <->
  exists pre post, hay = pre +:+ needle +:+ post.
Proof.
  induction hay as [|y hay IH]; cbn [contains].
  - rewrite orb_false_r, prefix_spec. split.
    + intros [post H]. by exists EmptyString, post.
    + intros (pre & post & H). destruct pre; [by exists post|done].
  - rewrite orb_true_iff, prefix_spec, IH. split.
    + intros [[post H]|(pre & post & H)].
      * by exists EmptyString, post.
      * exists (String y pre), post. simpl. by rewrite H.
    + intros (pre & post & H). destruct pre as [|z pre].
      * left. by exists post.
      * right. injection H as _ H. by exists pre, post.
Qed.

Lemma append_inj_r (a b c : string) : a +:+ b = a +:+ c -> b = c.
Proof. induction a as [|x a IH]; simpl; [done|]. intros [= H]. by apply IH. Qed.

(** X4: the report directory and the tmp directory of an output
    directory are never the same path. *)
Theorem report_tmp_distinct (out : string) :
  join out "report" <> join out "tmp".
Proof.
  unfold join. simpl String.prefix. cbv iota.
  destruct (last_char out) as [x|]; [|done].
  destruct (Ascii.eqb x "/"); intros H; apply append_inj_r in H; done.
Qed.

(** ** Invariants of a run *)

Section Inv.

Context (I : State -> Prop) (E : Termination -> State -> Prop).












End Inv.







(** X7: a run assigns no attribute of [config] other than [platform],
    [platfrom] and the four adaptive parameters: every other attribute
    has at the end the value it had at the start, however the run
    ends. *)
Theorem config_frame w cfg a (k : string) :
  k ∉ assigned_attrs ->
  config (snd (run w cfg a)) !! k = cfg !! k.
Proof.
  intros Hk. unfold run.
  apply (steady_at (fun st => config st !! k)).
  assert (forall k', k' ∈ assigned_attrs -> k' <> k) as Hne.
  { intros k' Hin ->. by apply Hk. }
  unfold main, set_params. cbv zeta.
  repeat steady_step;
    intros; first [apply attr_emit | apply attr_store_ne; apply Hne; elem_in].
Qed.

Lemma config_frame_witness :
  config (snd (run (sample_world 0 "linux" [] []) {["MIN_LEN" := VInt 1000]} sample_args))
    !! "MIN_LEN" = ({["MIN_LEN" := VInt 1000]} : gmap string Value) !! "MIN_LEN".
Proof.
  apply (config_frame (sample_world 0 "linux" [] []) {["MIN_LEN" := VInt 1000]}
           sample_args "MIN_LEN").
  intros H. elem_out H.
Defined.

(** ** Early exits and the edges of [set_params] *)

(** X8: with one read source and no assembly file, a run reports the
    error and exits with status 2 having done nothing but printing; the
    platform attribute of the read source has been assigned by then, and
    the well-formedness check has not been called. *)
Theorem no_assemblies_exits_early w cfg a :
  truthy (nano_reads_fname a) = negb (truthy (pacbio_reads_fname a)) ->
  assembly_fnames a = [] ->
  fst (run w cfg a) = Stop (SysExit 2) /\
  log (snd (run w cfg a)) =
    [Printed (now w AtStart +:+ " TandemQUAST started");
     Printed "ERROR! You should specify at least one assembly file."] /\
  config (snd (run w cfg a)) =
    (if truthy (nano_reads_fname a)
     then <["platform" := VStr "nano"]> cfg
     else <["platfrom" := VStr "pacbio"]> cfg).
Proof.
  intros Hsrc Hnil. unfold run, main. rewrite print_bind. cbv beta.
  rewrite Hsrc, Hnil.
  replace (_ || _) with false by (by destruct (truthy (pacbio_reads_fname a))).
  rewrite bind_if.
  destruct (negb (truthy (pacbio_reads_fname a)));
    rewrite bind_assoc, setattr_bind; cbv beta; rewrite ret_bind;
    rewrite bool_decide_eq_true_2 by done;
    rewrite print_bind; by repeat split.
Qed.

Lemma no_assemblies_exits_early_witness :
  let w := sample_world 0 "linux" [] [] in
  let a := {| assembly_fnames := []; labels := None;
              nano_reads_fname := Some "ont.fq"; pacbio_reads_fname := None;
              hifi_reads_fname := None; out_dir := "out"; threads := 4;
              monomers_fname := None; no_reuse := false; only_polish := false;
              no_nucl_alignment := false |} in
  fst (run w ∅ a) = Stop (SysExit 2) /\
  log (snd (run w ∅ a)) =
    [Printed "2020-01-01 10:00:00 TandemQUAST started";
     Printed "ERROR! You should specify at least one assembly file."] /\
  config (snd (run w ∅ a)) = <["platform" := VStr "nano"]> ∅.
Proof.
  intros w a. apply (no_assemblies_exits_early w ∅ a); reflexivity.
Defined.

(** X9: in every mode, with one read source and at least one assembly
    file, a failing well-formedness check ends the run with status 1
    right after the check: no length is read, no directory is created,
    no stage is invoked and no adaptive parameter is assigned. *)
Theorem invalid_assembly_exits_1 w cfg a :
  truthy (nano_reads_fname a) = negb (truthy (pacbio_reads_fname a)) ->
  assembly_fnames a <> [] ->
  perform w (check_fasta_files (assembly_fnames a)) = Returns false ->
  fst (run w cfg a) = Stop (SysExit 1) /\
  log (snd (run w cfg a)) =
    [Printed (now w AtStart +:+ " TandemQUAST started");
     Called (check_fasta_files (assembly_fnames a))] /\
  config (snd (run w cfg a)) =
    (if truthy (nano_reads_fname a)
     then <["platform" := VStr "nano"]> cfg
     else <["platfrom" := VStr "pacbio"]> cfg).
Proof.
  intros Hsrc Hne Hc. unfold run, main. rewrite print_bind. cbv beta.
  rewrite Hsrc.
  replace (_ || _) with false by (by destruct (truthy (pacbio_reads_fname a))).
  rewrite bind_if.
  destruct (negb (truthy (pacbio_reads_fname a)));
    rewrite bind_assoc, setattr_bind; cbv beta; rewrite ret_bind;
    rewrite bool_decide_eq_false_2 by done;
    unfold set_params; rewrite !bind_assoc;
    rewrite (call_bind_returns w _ false) by assumption;
    cbn [negb]; rewrite !exit_bind; by repeat split.
Qed.

Lemma invalid_assembly_exits_1_witness :
  fst (run check_fails_world ∅ sample_args) = Stop (SysExit 1) /\
  log (snd (run check_fails_world ∅ sample_args)) =
    [Printed "2020-01-01 10:00:00 TandemQUAST started";
     Called (check_fasta_files ["a.fa"; "b.fasta"])] /\
  config (snd (run check_fails_world ∅ sample_args)) = <["platform" := VStr "nano"]> ∅.
Proof.
  apply (invalid_assembly_exits_1 check_fails_world ∅ sample_args).
  - reflexivity.
  - discriminate.
  - reflexivity.
Defined.

(** [set_params] never changes [config] when it does not return. *)
Lemma set_params_stop w fnames t st e st' :
  set_params w fnames t st = (Stop e, st') ->
  config st' = config st /\ (e = SysExit 1 \/ e = Uncaught).
Proof.
  unfold set_params.
  destruct (perform w (check_fasta_files fnames)) as [[|]|] eqn:Hc.
  2:{ rewrite (call_bind_returns w _ _ _ _ Hc). cbn [negb].
      intros [= <- <-]. auto. }
  2:{ rewrite (call_bind_raises w _ _ _ Hc). intros [= <- <-]. auto. }
  rewrite (call_bind_returns w _ _ _ _ Hc). cbv beta. cbn [negb].
  set (s := emit (Called (check_fasta_files fnames)) st).
  assert (steady config (mapM (fun f => call w (get_fasta_len f)) fnames)) as Hs.
  { apply steady_mapM. intros f. by apply steady_call. }
  specialize (Hs s).
  destruct (mapM_call_cases w get_fasta_len fnames s) as [(lens & HF & E)|(s' & E)];
    rewrite bind_eq, E; rewrite E in Hs; cbn [snd] in Hs.
  2:{ intros [= <- <-]. auto. }
  destruct (max_of lens) as [L|] eqn:HL.
  2:{ destruct lens; [|discriminate HL]. intros [= <- <-]. auto. }
  rewrite bind_eq, (py_max_some _ L) by assumption.
  rewrite setattr_bind. cbv beta.
  destruct (L <? 100000); [|destruct (L <? 1000000)];
    (rewrite setattr_bind; cbv beta;
     rewrite (getattr_bind _ _ _ _ (attr_store_eq _ _ _)); cbv beta;
     rewrite setattr_bind; cbv beta; unfold setattr; discriminate).
Qed.

(** X10: [set_params] stores all four parameters or none.  When it
    returns, the list of files was not empty and [config] holds the four
    parameters of one maximum length; when it does not return (the check
    failed, a call raised, or the list was empty and [max] raised) it has
    left [config] as it was and ends in [sys.exit(1)] or an exception. *)
Theorem set_params_all_or_nothing w fnames t st :
  match set_params w fnames t st with
  | (Val _, st') =>
      fnames <> [] /\
      exists L,
        config st' =
          <["MAX_THREADS" := VInt t]>
            (<["MOVING_AVG_WINDOW_SIZE" := VInt 20]>
               (<["BP_WINDOW_SIZE" := VInt (bp_tier L)]>
                  (<["KMER_WINDOW_SIZE" := VInt (Z.max 500 (L / 150))]> (config st))))
  | (Stop e, st') =>
      config st' = config st /\ (e = SysExit 1 \/ e = Uncaught)
  end.
Proof.
  destruct (set_params w fnames t st) as [[[]|e] st'] eqn:E.
  - apply set_params_val in E as (lens & L & _ & HF & HL & _ & Hcfg). split.
    + intros ->. apply Forall2_nil_inv_l in HF. by subst lens.
    + exists L. rewrite Hcfg. do 2 f_equal. f_equal. lia.
  - by apply set_params_stop in E.
Qed.

(** ** Arguments a run does not look at *)

(** X11: outside polish-only mode the HiFi reads file plays no part: two
    runs that differ only in it print, call, store and end alike. *)
Theorem hifi_only_for_polishing w cfg a (h : option string) :
  only_polish a = false ->
  run w cfg (with_hifi h a) = run w cfg a.
Proof.
  intros Hpo. unfold run, main, cmdl, with_hifi.
  cbn [assembly_fnames labels nano_reads_fname pacbio_reads_fname hifi_reads_fname
       out_dir threads monomers_fname no_reuse only_polish no_nucl_alignment].
  rewrite Hpo. reflexivity.
Qed.

Lemma hifi_only_for_polishing_witness :
  run (sample_world 0 "linux" [] []) ∅ (with_hifi (Some "hifi.fq") sample_args)
  = run (sample_world 0 "linux" [] []) ∅ sample_args.
Proof.
  apply (hifi_only_for_polishing (sample_world 0 "linux" [] []) ∅ sample_args).
  reflexivity.
Defined.

(** X12: in polish-only mode the monomer file, the no-reuse flag and the
    no-nucl-align flag play no part: two runs that differ only in them
    print, call, store and end alike. *)
Theorem polish_ignores_analysis_settings w cfg a (m : option string) (reuse nucl : bool) :
  only_polish a = true ->
  run w cfg (with_analysis m reuse nucl a) = run w cfg a.
Proof.
  intros Hpo. unfold run, main, cmdl, with_analysis.
  cbn [assembly_fnames labels nano_reads_fname pacbio_reads_fname hifi_reads_fname
       out_dir threads monomers_fname no_reuse only_polish no_nucl_alignment].
  rewrite Hpo. reflexivity.
Qed.

Lemma polish_ignores_analysis_settings_witness :
  run (sample_world 0 "linux" [] []) ∅
      (with_analysis (Some "mono.fa") true true polish_args)
  = run (sample_world 0 "linux" [] []) ∅ polish_args.
Proof.
  apply (polish_ignores_analysis_settings (sample_world 0 "linux" [] []) ∅ polish_args).
  reflexivity.
Defined.

Lemma remove_char_idem c s : remove_char c (remove_char c s) = remove_char c s.
Proof.
  induction s as [|x s IH]; [done|]. simpl.
  destruct (Ascii.eqb x c) eqn:E; [done|]. simpl. by rewrite E, IH.
Qed.

Lemma truthy_Some s : s <> "" -> truthy (Some s) = true.
Proof. by destruct s. Qed.

(** X13: double quotes in the label string are ignored: when the label
    string without its quotes is not empty, the run is the same as with
    the quotes removed beforehand. *)
Theorem label_quotes_ignored w cfg a (l : string) :
  labels a = Some l ->
  remove_char dquote l <> "" ->
  run w cfg (with_labels (Some (remove_char dquote l)) a) = run w cfg a.
Proof.
  intros Hl Hne. unfold run, main, cmdl, with_labels.
  cbn [assembly_fnames labels nano_reads_fname pacbio_reads_fname hifi_reads_fname
       out_dir threads monomers_fname no_reuse only_polish no_nucl_alignment].
  rewrite Hl. cbn [from_option id].
  rewrite remove_char_idem.
  rewrite (truthy_Some _ Hne), (truthy_Some l) by (intros ->; by apply Hne).
  reflexivity.
Qed.

Lemma label_quotes_ignored_witness :
  let a := with_labels (Some (String dquote ("x" +:+ String dquote ",y"))) sample_args in
  run (sample_world 0 "linux" [] []) ∅ (with_labels (Some "x,y") a)
  = run (sample_world 0 "linux" [] []) ∅ a.
Proof.
  intros a.
  apply (label_quotes_ignored (sample_world 0 "linux" [] []) ∅ a
           (String dquote ("x" +:+ String dquote ",y"))).
  - reflexivity.
  - discriminate.
Defined.

(** ** Whole runs *)

(** A call whose outcome is known. *)
Ltac known_call :=
  erewrite call_bind_returns by (solve [eauto]); cbv beta.

(** X14: a complete analysis run.  On valid input, outside polish-only
    mode, when the aligner returns 0 and no stage raises, the stages are
    invoked in the order aligner, coverage, breakpoints, k-mers (unless
    switched off), pairwise comparison, discordance and, when a monomer
    file was given that exists on a Linux platform, monomers; the run
    then returns from [main], and otherwise leaves through
    [sys.exit(0)]. *)
Theorem full_analysis_run w cfg a len asm :
  setup_ok w a len asm ->
  stages_ok w ->
  only_polish a = false ->
  stages (log (snd (run w cfg a))) =
    [Aligner; Coverage; Breakpoint]
    ++ (if no_nucl_alignment a then [] else [KmerConsistency])
    ++ [PairwiseComparison; Discordance]
    ++ (if truthy (monomers_fname a) && contains "linux" (sys_platform w)
           && path_exists w (default "" (monomers_fname a))
        then [MonomerUnit] else []) /\
  fst (run w cfg a) =
    (if truthy (monomers_fname a) && contains "linux" (sys_platform w)
        && path_exists w (default "" (monomers_fname a))
     then Val tt else Stop (SysExit 0)) /\
  exit_status (fst (run w cfg a)) = 0.
Proof.
  intros Hok (Hal & Hcov & Hbp & Hkm & Hpw & Hdi & Hmo) Hpo.
  unfold run. rewrite main_split, bind_eq.
  set (st0 := {| config := cfg; log := [] |}).
  pose proof (main_setup_steady_seen stage_of w a stage_of_quiet st0) as Hq.
  change (seen stage_of st0) with (@nil Stage) in Hq.
  destruct (main_setup_ok w a len asm st0 Hok) as (L & st1 & _ & E & _).
  rewrite E in Hq |- *. cbn [snd] in Hq.
  unfold main_stages. rewrite Hpo.
  do 3 (rewrite print_bind; cbv beta).
  known_call. cbn [Z.eqb negb].
  do 2 known_call.
  destruct (no_nucl_alignment a); cbn [negb]; [rewrite ret_bind|known_call];
    do 2 known_call;
    destruct (truthy (monomers_fname a)) eqn:Ht,
      (contains "linux" (sys_platform w)),
      (path_exists w (default "" (monomers_fname a))) eqn:Hx;
    cbn [andb orb negb];
    repeat first [rewrite print_bind | rewrite ret_bind | rewrite bind_assoc];
    cbv beta; cbn [truthy andb orb negb]; rewrite ?Ht, ?Hx; cbn [andb orb negb];
    repeat first [rewrite print_bind | rewrite exit_bind | known_call];
    unfold print, sys_exit; see; rewrite Hq; by repeat split.
Qed.

Lemma full_analysis_run_witness :
  let w := sample_world 0 "linux" [] ["mono.fa"] in
  stages (log (snd (run w ∅ sample_args))) =
    [Aligner; Coverage; Breakpoint; KmerConsistency; PairwiseComparison;
     Discordance; MonomerUnit] /\
  fst (run w ∅ sample_args) = Val tt /\
  exit_status (fst (run w ∅ sample_args)) = 0.
Proof.
  intros w.
  apply (full_analysis_run w ∅ sample_args sample_len sample_assembly).
  - repeat split; first [reflexivity | discriminate | intros; reflexivity].
  - repeat split; intros; reflexivity.
  - reflexivity.
Defined.




(** ** Assemblies, labels and the command line of the aligner *)

(** Any step of a run whose outcome is open. *)
Ltac blind_step :=
  cbv beta;
  first
    [ rewrite print_bind
    | rewrite setattr_bind
    | rewrite ret_bind
    | rewrite exit_bind
    | rewrite bind_assoc
    | match goal with
      | |- context [((if ?b then _ else _) ≫= _) _] => destruct b
      | |- context [(if ?b then _ else _) _] => destruct b
      end
    | match goal with
      | |- context [(?m ≫= ?k) ?st] =>
          rewrite (bind_eq m k st); destruct (m st) as [[?|?] ?]
      end ].

(** When the first half returns there are as many labels as assembly
    files. *)
Lemma main_setup_val_labels w a st c st1 :
  main_setup w a st = (Val c, st1) ->
  length (label_list a) = length (assembly_fnames a).
Proof.
  unfold label_list. destruct (truthy (labels a)) eqn:Ht.
  2:{ intros _. apply length_replicate. }
  destruct (length (split "," (remove_char dquote (default "" (labels a))))
            =? length (assembly_fnames a))%nat eqn:Hlen.
  { intros _. rewrite length_map. by apply Nat.eqb_eq. }
  unfold main_setup. rewrite Ht, Hlen. cbn [negb]. cbv zeta.
  repeat blind_step; unfold sys_exit; discriminate.
Qed.

Lemma omap_built_zip {B} (g : string * B -> string -> Event)
    (fs : list string) (ls : list B) :
  (forall fl, built_of (g fl (fst fl)) = Some (fst fl)) ->
  length ls = length fs ->
  omap built_of (map (fun fl => g fl (fst fl)) (zip fs ls)) = fs.
Proof.
  intros Hg. revert ls. induction fs as [|f fs IH]; intros [|l ls] Hl;
    simpl in *; try done.
  rewrite Hg. simpl. f_equal. apply IH. lia.
Qed.

(** The second half constructs no assembly. *)
Lemma main_stages_steady_built w a c : steady (seen built_of) (main_stages w a c).
Proof.
  unfold main_stages.
  repeat steady_step;
    intros; first [apply seen_store | apply seen_emit_none; reflexivity].
Qed.

(** X16: whenever a run invokes a stage (polishing, the aligner or an
    analysis stage), an [Assembly] has been constructed exactly once
    for each assembly file, in the order of the command line. *)
Theorem assemblies_built_in_order w cfg a :
  stages (log (snd (run w cfg a))) <> [] ->
  built (log (snd (run w cfg a))) = assembly_fnames a.
Proof.
  unfold run. rewrite main_split, bind_eq.
  set (st0 := {| config := cfg; log := [] |}).
  pose proof (main_setup_steady_seen stage_of w a stage_of_quiet st0) as Hq.
  change (seen stage_of st0) with (@nil Stage) in Hq.
  destruct (main_setup w a st0) as [[c|t] st1] eqn:E; cbn [snd] in Hq.
  2:{ cbn [snd]. intros H. destruct H. exact Hq. }
  intros _.
  pose proof (main_setup_val_labels _ _ _ _ _ E) as Hlen.
  pose proof (main_setup_val _ _ _ _ _ E) as HV. cbv zeta in HV.
  destruct HV as (lens & L & asms & _ & _ & _ & _ & _ & _ & Hlog & _).
  change (built (log ?s)) with (seen built_of s).
  rewrite (main_stages_steady_built w a c st1).
  unfold seen. rewrite Hlog. unfold st0. cbn [log app].
  rewrite !omap_cons_eq, !omap_app, !omap_ensure_dir.
  cbn [built_of].
  rewrite (omap_map_none built_of (fun f => Called (get_fasta_len f))) by done.
  rewrite (omap_built_zip
             (fun fl f => Called (new_Assembly f (snd fl) (abspath w (out_dir a)))))
    by done.
  by destruct (isdir w _), (isdir w _).
Qed.

Lemma assemblies_built_in_order_witness :
  built (log (snd (run (sample_world 0 "linux" [] []) ∅ sample_args)))
  = assembly_fnames sample_args.
Proof.
  apply (assemblies_built_in_order (sample_world 0 "linux" [] []) ∅ sample_args).
  vm_compute. discriminate.
Defined.

Lemma str_join_split sep s : str_join (String sep EmptyString) (split sep s) = s.
Proof.
  unfold str_join. induction s as [|x s IH]; [done|]. simpl.
  pose proof (split_not_nil sep s) as Hne.
  destruct (Ascii.eqb x sep) eqn:E.
  - apply Ascii.eqb_eq in E. subst x.
    rewrite concat_cons by done. simpl. by rewrite IH.
  - destruct (split sep s) as [|h [|h' t]]; [done| |].
    + simpl in *. by rewrite IH.
    + rewrite concat_cons by done. rewrite concat_cons in IH by done.
      by rewrite <- IH.
Qed.

Lemma map_label_zip (asm : string -> option string -> string -> Assembly) out fs ls :
  (forall f n o, label (asm f (Some n) o) = n) ->
  length ls = length fs ->
  map label (map (fun fl => asm (fst fl) (snd fl) out) (zip fs (map Some ls))) = ls.
Proof.
  intros Hl. revert ls. induction fs as [|f fs IH]; intros [|l ls] Hlen;
    simpl in *; try done.
  rewrite Hl. f_equal. apply IH. lia.
Qed.

(** X17: the labels reach the aligner as they were given.  On valid
    input outside polish-only mode, with a label string [l] and an
    [Assembly] constructor that keeps the name it is given as its label,
    the aligner is started exactly once, and its command line carries at
    positions 7 and 8 the option [-l] and the string [l] without its
    double quotes. *)
Theorem labels_reach_aligner w cfg a len asm (l : string) :
  setup_ok w a len asm ->
  only_polish a = false ->
  labels a = Some l ->
  l <> "" ->
  (forall f n o, label (asm f (Some n) o) = n) ->
  exists cmd,
    aligner_calls (log (snd (run w cfg a))) = [cmd] /\
    cmd !! 7%nat = Some "-l" /\
    cmd !! 8%nat = Some (remove_char dquote l).
Proof.
  intros Hok Hpo Hl Hne Hlab.
  assert (truthy (labels a) = true) as Ht by (rewrite Hl; by apply truthy_Some).
  pose proof Hok as (_ & _ & _ & _ & Hlen & _). specialize (Hlen Ht).
  exists (cmdl w a (abspath w (out_dir a)) (reads_of a)
            (map (fun fl => asm (fst fl) (snd fl) (abspath w (out_dir a)))
                 (zip (assembly_fnames a) (label_list a)))).
  split; [|split].
  - unfold run. rewrite main_split, bind_eq.
    set (st0 := {| config := cfg; log := [] |}).
    pose proof (main_setup_steady_seen aligner_cmdl w a aligner_cmdl_quiet st0) as Hq.
    change (seen aligner_cmdl st0) with (@nil (list string)) in Hq.
    destruct (main_setup_ok w a len asm st0 Hok) as (L & st1 & _ & E & _).
    rewrite E in Hq |- *. cbn [snd] in Hq.
    unfold main_stages. rewrite Hpo.
    cbn [ctx_assemblies ctx_reads ctx_out ctx_tmp ctx_report].
    exec_bool; see; by rewrite Hq.
  - reflexivity.
  - unfold cmdl. cbn [app lookup list_lookup]. f_equal.
    unfold label_list. rewrite Ht, Hl in *. cbn [from_option id] in *.
    rewrite map_label_zip by done.
    apply (str_join_split ",").
Qed.

Lemma labels_reach_aligner_witness :
  exists cmd,
    aligner_calls (log (snd (run (sample_world 0 "linux" [] []) ∅ sample_args))) = [cmd] /\
    cmd !! 7%nat = Some "-l" /\
    cmd !! 8%nat = Some (remove_char dquote "x,y").
Proof.
  apply (labels_reach_aligner (sample_world 0 "linux" [] []) ∅ sample_args
           sample_len sample_assembly "x,y").
  - repeat split; first [reflexivity | discriminate | intros; reflexivity].
  - reflexivity.
  - reflexivity.
  - discriminate.
  - intros f n o. reflexivity.
Defined.

(** ** The longest assembly and the directories *)

Lemma foldl_max_spec (l : list Z) (x : Z) :
  foldl Z.max x l ∈ x :: l /\ forall y, y ∈ x :: l -> y <= foldl Z.max x l.
Proof.
  revert x. induction l as [|z l IH]; intros x; simpl.
  - split; [apply list_elem_of_here|]. intros y Hy.
    apply list_elem_of_singleton in Hy. lia.
  - destruct (IH (Z.max x z)) as [Hin Hub]. split.
    + apply elem_of_cons in Hin as [Hin|Hin].
      * rewrite Hin. destruct (Z.max_spec x z) as [[_ ->]|[_ ->]].
        -- apply list_elem_of_further, list_elem_of_here.
        -- apply list_elem_of_here.
      * by do 2 apply list_elem_of_further.
    + intros y Hy.
      assert (Z.max x z <= foldl Z.max (Z.max x z) l) as Hm
        by (apply Hub, list_elem_of_here).
      apply elem_of_cons in Hy as [->|Hy]; [lia|].
      apply elem_of_cons in Hy as [->|Hy]; [lia|].
      by apply Hub, list_elem_of_further.
Qed.

(** X18: the parameters are those of the longest assembly.  On
    well-formed files, [set_params] returns and the k-mer and breakpoint
    windows it stores are computed from the length of one of the files,
    which no other file exceeds. *)
Theorem set_params_uses_longest w fnames t len st :
  fasta_ok w fnames len ->
  fnames <> [] ->
  exists st' f,
    set_params w fnames t st = (Val tt, st') /\
    f ∈ fnames /\
    (forall g, g ∈ fnames -> len g <= len f) /\
    config st' !! "KMER_WINDOW_SIZE" = Some (VInt (Z.max 500 (len f / 150))) /\
    config st' !! "BP_WINDOW_SIZE" = Some (VInt (bp_tier (len f))).
Proof.
  intros Hok Hne.
  destruct (max_of_is_Some (map len fnames)) as [L HL].
  { by destruct fnames. }
  destruct (set_params_ok w fnames t len L st Hok HL) as (st' & E & _ & Hcfg).
  assert (L ∈ map len fnames /\ forall y, y ∈ map len fnames -> y <= L) as [Hin Hub].
  { destruct (map len fnames) as [|x l]; [done|]. injection HL as <-.
    apply foldl_max_spec. }
  apply list_elem_of_fmap in Hin as (f & -> & Hf).
  exists st', f. split; [exact E|]. split; [exact Hf|]. split.
  - intros g Hg. apply Hub. apply list_elem_of_fmap. by exists g.
  - rewrite Hcfg. split.
    + rewrite !lookup_insert_ne by done. apply lookup_insert_eq.
    + rewrite !lookup_insert_ne by done. apply lookup_insert_eq.
Qed.

Lemma set_params_uses_longest_witness :
  exists st' f,
    set_params (sample_world 0 "linux" [] []) ["a.fa"; "b.fasta"] 4 empty_state
      = (Val tt, st') /\
    f ∈ ["a.fa"; "b.fasta"] /\
    (forall g, g ∈ ["a.fa"; "b.fasta"] -> sample_len g <= sample_len f) /\
    config st' !! "KMER_WINDOW_SIZE" = Some (VInt (Z.max 500 (sample_len f / 150))) /\
    config st' !! "BP_WINDOW_SIZE" = Some (VInt (bp_tier (sample_len f))).
Proof.
  apply (set_params_uses_longest (sample_world 0 "linux" [] [])
           ["a.fa"; "b.fasta"] 4 sample_len empty_state).
  - split; [reflexivity | intros f _; reflexivity].
  - discriminate.
Defined.

Lemma set_params_steady_dirs w fnames t :
  steady (seen made_dir) (set_params w fnames t).
Proof.
  unfold set_params.
  repeat steady_step;
    intros; first [apply seen_store | apply seen_emit_none; reflexivity].
Qed.

(** The second half creates no directory. *)
Lemma main_stages_steady_dirs w a c : steady (seen made_dir) (main_stages w a c).
Proof.
  unfold main_stages.
  repeat steady_step;
    intros; first [apply seen_store | apply seen_emit_none; reflexivity].
Qed.

(** Closing a goal on the directories made so far. *)
Ltac close_dirs :=
  cbn [fst snd]; unfold print, sys_exit; cbn [mret M_ret fst snd];
  repeat first
    [ rewrite seen_emit
    | rewrite seen_store
    | match goal with
      | H : seen made_dir ?s = _ |- context [seen made_dir ?s] => rewrite H
      end ];
  cbn [made_dir];
  rewrite ?app_nil_r, <- ?app_assoc; cbn [app];
  first
    [ exists (@nil string); split; [rewrite ?app_nil_r; reflexivity | apply prefix_nil]
    | eexists; split; [reflexivity|]; eexists; reflexivity ].

(** The directories the first half makes, in any world. *)
Lemma main_setup_dirs w a st :
  exists d,
    seen made_dir (snd (main_setup w a st)) = seen made_dir st ++ d /\
    d `prefix_of`
      (if isdir w (join (abspath w (out_dir a)) "report")
       then [] else [join (abspath w (out_dir a)) "report"]) ++
      (if isdir w (join (abspath w (out_dir a)) "tmp")
       then [] else [join (abspath w (out_dir a)) "tmp"]).
Proof.
  unfold main_setup. rewrite print_bind. cbv beta.
  destruct (_ || _); [rewrite print_bind; close_dirs|].
  rewrite bind_if.
  destruct (truthy (nano_reads_fname a));
    rewrite bind_assoc, setattr_bind; cbv beta; rewrite ret_bind.
  all: destruct (bool_decide (assembly_fnames a = []));
    [rewrite print_bind; close_dirs|].
  all: match goal with
       | |- context [(set_params ?w0 ?f ?t ≫= ?k) ?s] =>
           pose proof (set_params_steady_dirs w0 f t s) as H2;
           rewrite (bind_eq (set_params w0 f t) k s);
           destruct (set_params w0 f t s) as [[[]|e] s2]; cbn [snd] in H2
       end; [|close_dirs].
  all: cbv zeta.
  all: destruct (isdir w (join (abspath w (out_dir a)) "report")); cbn [negb];
    [rewrite ret_bind
    |match goal with
     | |- context [(call ?w0 ?c ≫= ?k) ?s] =>
         destruct (perform w0 c) as [[]|] eqn:E3;
         [rewrite (call_bind_returns w0 c _ k s E3)
         |rewrite (call_bind_raises w0 c k s E3); close_dirs]
     end].
  all: destruct (isdir w (join (abspath w (out_dir a)) "tmp")); cbn [negb];
    [rewrite ret_bind
    |match goal with
     | |- context [(call ?w0 ?c ≫= ?k) ?s] =>
         destruct (perform w0 c) as [[]|] eqn:E4;
         [rewrite (call_bind_returns w0 c _ k s E4)
         |rewrite (call_bind_raises w0 c k s E4); close_dirs]
     end].
  all: rewrite bind_eq.
  all: destruct (truthy (labels a));
    [destruct (negb (_ =? _)%nat); [rewrite print_bind; close_dirs|]|].
  all: cbn [mret M_ret].
  all: match goal with
       | |- context [(mapM ?g ?l ≫= ?k) ?s] =>
           assert (steady (seen made_dir) (mapM g l)) as H5
             by (apply steady_mapM; intros ?; apply steady_call; intros ?;
                 apply seen_emit_none; reflexivity);
           specialize (H5 s);
           rewrite (bind_eq (mapM g l) k s);
           destruct (mapM g l s) as [[asms|e] s5]; cbn [snd] in H5
       end.
  all: close_dirs.
Qed.

(** X19: in any world and however the run ends, the directories a run
    creates are an initial part of: the report directory if it did not
    exist, then the tmp directory if it did not exist.  So a run never
    calls [makedirs] on an existing directory, on any other path, or
    twice; and with both directories in place it creates nothing. *)
Theorem dirs_made_bounded w cfg a :
  (dirs_made (log (snd (run w cfg a))) `prefix_of`
     (if isdir w (join (abspath w (out_dir a)) "report")
      then [] else [join (abspath w (out_dir a)) "report"]) ++
     (if isdir w (join (abspath w (out_dir a)) "tmp")
      then [] else [join (abspath w (out_dir a)) "tmp"])) /\
  (isdir w (join (abspath w (out_dir a)) "report") = true ->
   isdir w (join (abspath w (out_dir a)) "tmp") = true ->
   dirs_made (log (snd (run w cfg a))) = []).
Proof.
  assert (dirs_made (log (snd (run w cfg a))) `prefix_of`
     (if isdir w (join (abspath w (out_dir a)) "report")
      then [] else [join (abspath w (out_dir a)) "report"]) ++
     (if isdir w (join (abspath w (out_dir a)) "tmp")
      then [] else [join (abspath w (out_dir a)) "tmp"])) as H.
  { unfold run. rewrite main_split, bind_eq.
    set (st0 := {| config := cfg; log := [] |}).
    destruct (main_setup_dirs w a st0) as (d & Hd & Hp).
    change (seen made_dir st0) with (@nil string) in Hd. cbn [app] in Hd.
    destruct (main_setup w a st0) as [[c|t] st1]; cbn [snd] in Hd |- *.
    - change (dirs_made (log ?s)) with (seen made_dir s).
      by rewrite (main_stages_steady_dirs w a c st1), Hd.
    - change (dirs_made (log ?s)) with (seen made_dir s). by rewrite Hd. }
  split; [exact H|].
  intros Hr Ht. rewrite Hr, Ht in H. by apply prefix_nil_inv in H.
Qed.

Lemma dirs_made_bounded_witness :
  let w := sample_world 0 "linux" ["/home/user/out/report"; "/home/user/out/tmp"] [] in
  dirs_made (log (snd (run w ∅ sample_args))) = [].
Proof.
  intros w.
  apply (proj2 (dirs_made_bounded w ∅ sample_args)); reflexivity.
Defined.

(** ** The last event of a run *)

Lemma last_emit e st : last (log (emit e st)) = Some e.
Proof. apply last_snoc. Qed.

(** [set_params] leaves through [sys.exit(1)] right after the check. *)
Lemma set_params_exit_1 w fnames t st st' :
  set_params w fnames t st = (Stop (SysExit 1), st') ->
  st' = emit (Called (check_fasta_files fnames)) st.
Proof.
  unfold set_params.
  destruct (perform w (check_fasta_files fnames)) as [[|]|] eqn:Hc.
  2:{ rewrite (call_bind_returns w _ _ _ _ Hc). cbn [negb]. by intros [= <-]. }
  2:{ rewrite (call_bind_raises w _ _ _ Hc). discriminate. }
  rewrite (call_bind_returns w _ _ _ _ Hc). cbv beta. cbn [negb].
  destruct (mapM_call_cases w get_fasta_len fnames
              (emit (Called (check_fasta_files fnames)) st))
    as [(lens & HF & E)|(s' & E)]; rewrite bind_eq, E; [|discriminate].
  destruct (max_of lens) as [L|] eqn:HL.
  2:{ destruct lens; [|discriminate HL]. discriminate. }
  rewrite bind_eq, (py_max_some _ L) by assumption.
  rewrite setattr_bind. cbv beta.
  destruct (L <? 100000); [|destruct (L <? 1000000)];
    (rewrite setattr_bind; cbv beta;
     rewrite (getattr_bind _ _ _ _ (attr_store_eq _ _ _)); cbv beta;
     rewrite setattr_bind; cbv beta; unfold setattr; discriminate).
Qed.

(** How the first half ends when it does not return. *)
Lemma main_setup_stop_last w a st t st1 :
  main_setup w a st = (Stop t, st1) ->
  (t = SysExit 1 ->
   last (log st1) = Some (Called (check_fasta_files (assembly_fnames a)))) /\
  (t = SysExit 2 ->
   exists msg, last (log st1) = Some (Printed msg) /\ msg ∈ error_lines).
Proof.
  unfold main_setup. rewrite print_bind. cbv beta.
  destruct (_ || _).
  { rewrite print_bind. intros [= <- <-]. split; [discriminate|]. intros _.
    eexists. split; [apply last_emit|]. unfold error_lines. elem_in. }
  rewrite bind_if.
  destruct (truthy (nano_reads_fname a));
    rewrite bind_assoc, setattr_bind; cbv beta; rewrite ret_bind.
  all: destruct (bool_decide (assembly_fnames a = []));
    [rewrite print_bind; intros [= <- <-]; (split; [discriminate|]); intros _;
     eexists; (split; [apply last_emit|]); unfold error_lines; elem_in|].
  all: match goal with
       | |- context [(set_params ?w0 ?f ?t0 ≫= ?k) ?s] =>
           rewrite (bind_eq (set_params w0 f t0) k s);
           destruct (set_params w0 f t0 s) as [[[]|e] s2] eqn:E2
       end.
  2,4: intros [= <- <-]; destruct (set_params_stop _ _ _ _ _ _ E2) as [_ [->| ->]];
    (split; [|discriminate]); try discriminate;
    intros _; apply set_params_exit_1 in E2; subst s2; apply last_emit.
  all: cbv zeta.
  all: match goal with
       | |- context [((if negb (isdir ?w0 ?p) then _ else _) ≫= ?k) ?s] =>
           destruct (ensure_dir_cases w0 p k s) as [E3|[s3 E3]]; rewrite E3; clear E3
       end; try (intros [= <- <-]; split; discriminate).
  all: match goal with
       | |- context [((if negb (isdir ?w0 ?p) then _ else _) ≫= ?k) ?s] =>
           destruct (ensure_dir_cases w0 p k s) as [E4|[s4 E4]]; rewrite E4; clear E4
       end; try (intros [= <- <-]; split; discriminate).
  all: rewrite bind_eq.
  all: destruct (truthy (labels a));
    [destruct (negb (_ =? _)%nat);
     [rewrite print_bind; intros [= <- <-]; (split; [discriminate|]); intros _;
      eexists; (split; [apply last_emit|]); unfold error_lines; elem_in|]|].
  all: cbn [mret M_ret].
  all: match goal with
       | |- context [(mapM (fun fl => call ?w0 (@?c fl)) ?l ≫= _) ?s] =>
           destruct (mapM_call_cases w0 c l s) as [(asms & HA & E5)|(s5 & E5)];
           rewrite bind_eq, E5
       end; try discriminate; intros [= <- <-]; split; discriminate.
Qed.
